(** * HotelStay demo server: the query tool and the widget resource

    A shallow embedding of [src/server/app.py] and the properties of its
    specification.

    Conventions of the model.
    - A Python [str] is a [string] whose characters are the code points
      below 256 (Latin-1); [lower] and [strip] are Python's on that range.
    - A parsed JSON document is a [value]: [int]s are unbounded integers,
      [float]s are doubles, given by their exact value or as an infinity
      or NaN.  [float()] rounds an [int] to the nearest double, ties to
      even, and raises [OverflowError] beyond the range of doubles;
      comparisons between numbers are exact, NaN excepted.
    - Exceptions are values of [exn]; a computation that may raise returns
      a [result].
    - The builtin [list.sort] is a parameter of the model, described by the
      contract [sort_contract]: CPython's result on keys that it does not
      order consistently depends on the order of its comparisons and is left
      open.  [reference_sort] is one sort that meets the contract.
    - The files the server reads are the [world]: the dataset file by what
      reading and parsing it gives, the assets directory by what a glob
      pattern yields there. *)

From Stdlib Require Import List String Ascii Bool Arith ZArith QArith Lia.
From Stdlib Require Import Permutation Sorted DecimalString.
Import ListNotations.

Set Warnings "-register-all".
Close Scope Q_scope.
Open Scope nat_scope.
Open Scope string_scope.
Open Scope list_scope.

(* ------------------------------------------------------------------ *)
(** ** Python strings *)

Module PyStr.

(** [str.isspace] on one code point below 256. *)
Definition is_space (c : ascii) : bool :=
  let n := nat_of_ascii c in
  (((9 <=? n) && (n <=? 13)) || ((28 <=? n) && (n <=? 32))
   || (n =? 133) || (n =? 160))%nat.

(** [str.lower] on one code point below 256: A-Z and the accented capitals
    of Latin-1 (the multiplication sign 215 is not a letter). *)
Definition lower_char (c : ascii) : ascii :=
  let n := nat_of_ascii c in
  if (((65 <=? n) && (n <=? 90))
      || ((192 <=? n) && (n <=? 222) && negb (n =? 215)))%nat
  then ascii_of_nat (n + 32) else c.

Fixpoint lower (s : string) : string :=
  match s with
  | EmptyString => EmptyString
  | String c s' => String (lower_char c) (lower s')
  end.

Fixpoint lstrip (s : string) : string :=
  match s with
  | EmptyString => EmptyString
  | String c s' => if is_space c then lstrip s' else s
  end.

Fixpoint rstrip (s : string) : string :=
  match s with
  | EmptyString => EmptyString
  | String c s' =>
      match rstrip s' with
      | EmptyString => if is_space c then EmptyString else String c EmptyString
      | r => String c r
      end
  end.

Definition strip (s : string) : string := rstrip (lstrip s).

(** [name.endswith(suffix)]. *)
Definition ends_with (suffix name : string) : bool :=
  let n := String.length name in
  let m := String.length suffix in
  (m <=? n)%nat && (substring (n - m) m name =? suffix)%string.

(** The characters of a string, each as a one-character string (what
    iterating over a [str] yields). *)
Fixpoint chars (s : string) : list string :=
  match s with
  | EmptyString => []
  | String c s' => String c EmptyString :: chars s'
  end.

(** [str(n)] for a length. *)
Definition of_nat (n : nat) : string :=
  NilEmpty.string_of_uint (Nat.to_uint n).

End PyStr.

(* ------------------------------------------------------------------ *)
(** ** Exceptions and results *)

Inductive exn : Type :=
| KeyError (key : string)
| TypeError
| AttributeError
| ValueError
| OverflowError
| FileNotFoundError
| IsADirectoryError
| PermissionError
| UnicodeDecodeError
| JSONDecodeError.

Inductive result (A : Type) : Type :=
| Ok (a : A)
| Err (e : exn).

Arguments Ok {A} a.
Arguments Err {A} e.

Definition bind {A B : Type} (m : result A) (k : A -> result B) : result B :=
  match m with
  | Ok a => k a
  | Err e => Err e
  end.

Notation "x <- m ;; k" := (bind m (fun x => k))
  (at level 61, m at next level, right associativity).

(** A list comprehension [[s for s in l if p(s)]] whose test may raise. *)
Fixpoint filterM {A : Type} (p : A -> result bool) (l : list A)
  : result (list A) :=
  match l with
  | [] => Ok []
  | x :: l' =>
      b <- p x ;;
      r <- filterM p l' ;;
      Ok (if b then x :: r else r)
  end.

Fixpoint mapM {A B : Type} (f : A -> result B) (l : list A)
  : result (list B) :=
  match l with
  | [] => Ok []
  | x :: l' =>
      y <- f x ;;
      r <- mapM f l' ;;
      Ok (y :: r)
  end.

(* ------------------------------------------------------------------ *)
(** ** Python floats *)

(** A double: a finite one by its exact value, an infinity, or NaN. *)
Inductive pyfloat : Type :=
| FFin (q : Q)
| FInf (negative : bool)
| FNaN.

(** [a <= b] on floats: false as soon as one side is NaN. *)
Definition float_leb (a b : pyfloat) : bool :=
  match a, b with
  | FNaN, _ => false
  | _, FNaN => false
  | FInf true, _ => true
  | _, FInf false => true
  | FInf false, _ => false
  | _, FInf true => false
  | FFin x, FFin y => Qle_bool x y
  end.

(** [a < b] and [a == b]. *)
Definition float_ltb (a b : pyfloat) : bool :=
  float_leb a b && negb (float_leb b a).

Definition float_eqb (a b : pyfloat) : bool :=
  float_leb a b && float_leb b a.

Definition is_nan (a : pyfloat) : bool :=
  match a with FNaN => true | _ => false end.

(** [float(z)] for an [int]: exact below 2^53; above, the 53 leading bits
    are kept and the rest rounds to nearest, ties to even; a result of
    2^1024 or more is [OverflowError]. *)
Definition float_of_int (z : Z) : result pyfloat :=
  let a := Z.abs z in
  if (a <? 2 ^ 53)%Z then Ok (FFin (inject_Z z))
  else
    let shift := (Z.log2 a - 52)%Z in
    let m := Z.shiftr a shift in
    let rest := (a mod 2 ^ shift)%Z in
    let half := (2 ^ (shift - 1))%Z in
    let m' := if (half <? rest)%Z || ((rest =? half)%Z && Z.odd m)
              then (m + 1)%Z else m in
    let r := (m' * 2 ^ shift)%Z in
    if (2 ^ 1024 <=? r)%Z then Err OverflowError
    else Ok (FFin (inject_Z (Z.sgn z * r))).

(* ------------------------------------------------------------------ *)
(** ** JSON values as Python objects *)

(** What [json.loads] returns.  A [VDict] lists its items in insertion order
    and holds each key once ([json.loads] keeps the last of repeated keys);
    [dict_lookup] reads the binding of a key. *)
Inductive value : Type :=
| VNone
| VBool (b : bool)
| VInt (z : Z)
| VFloat (f : pyfloat)
| VStr (s : string)
| VList (l : list value)
| VDict (items : list (string * value)).

Fixpoint dict_lookup (k : string) (items : list (string * value))
  : option value :=
  match items with
  | [] => None
  | (k', v) :: items' =>
      if (k' =? k)%string then Some v else dict_lookup k items'
  end.

(** [o[k]] for a string [k]. *)
Definition subscript (o : value) (k : string) : result value :=
  match o with
  | VDict items =>
      match dict_lookup k items with
      | Some v => Ok v
      | None => Err (KeyError k)
      end
  | _ => Err TypeError
  end.

(** [o.get(k, default)]; only a [dict] has the method. *)
Definition py_get (o : value) (k : string) (default : value) : result value :=
  match o with
  | VDict items =>
      match dict_lookup k items with
      | Some v => Ok v
      | None => Ok default
      end
  | _ => Err AttributeError
  end.

(** [o.lower()]; only a [str] has the method. *)
Definition py_lower (o : value) : result string :=
  match o with
  | VStr s => Ok (PyStr.lower s)
  | _ => Err AttributeError
  end.

(** [o == t] for a [str] [t]. *)
Definition eq_str (o : value) (t : string) : bool :=
  match o with
  | VStr s => (s =? t)%string
  | _ => false
  end.

(** [for s in o]: the sequence iteration yields. *)
Definition py_iter (o : value) : result (list value) :=
  match o with
  | VList l => Ok l
  | VDict items => Ok (map (fun kv => VStr (fst kv)) items)
  | VStr s => Ok (map VStr (PyStr.chars s))
  | _ => Err TypeError
  end.

(** The number a [bool], [int] or [float] stands for in a comparison: an
    [int] by its exact value, without rounding. *)
Definition num_of (o : value) : option pyfloat :=
  match o with
  | VInt z => Some (FFin (inject_Z z))
  | VFloat f => Some f
  | VBool b => Some (FFin (if b then 1%Q else 0%Q))
  | _ => None
  end.

(** Equality of two elements inside a list or a dict, [x is y or x == y]:
    numbers by value, strings, lists and dicts by content.  The NaN of a
    JSON document is one object ([json] keeps it as a constant), so it is
    equal to itself here. *)
Fixpoint same_or_equal (a b : value) {struct a} : bool :=
  match a, b with
  | VNone, VNone => true
  | VStr s, VStr t => (s =? t)%string
  | VList la, VList lb =>
      (fix go (la lb : list value) {struct la} : bool :=
         match la, lb with
         | [], [] => true
         | x :: la', y :: lb' => same_or_equal x y && go la' lb'
         | _, _ => false
         end) la lb
  | VDict da, VDict db =>
      (List.length da =? List.length db)%nat
      && (fix go (da : list (string * value)) {struct da} : bool :=
            match da with
            | [] => true
            | (k, v) :: da' =>
                match dict_lookup k db with
                | Some v' => same_or_equal v v'
                | None => false
                end && go da'
            end) da
  | _, _ =>
      match num_of a, num_of b with
      | Some x, Some y => (is_nan x && is_nan y) || float_eqb x y
      | _, _ => false
      end
  end.

(** [a < b]: between numbers (exactly, false with a NaN), between strings
    (by code point) and between lists (the first pair of elements that are
    not equal decides, else the lengths); [None] where Python raises
    [TypeError]. *)
Fixpoint py_lt (a b : value) {struct a} : option bool :=
  match a, b with
  | VStr s, VStr t => Some (String.ltb s t)
  | VList la, VList lb =>
      (fix go (la lb : list value) {struct la} : option bool :=
         match la, lb with
         | [], [] => Some false
         | [], _ :: _ => Some true
         | _ :: _, [] => Some false
         | x :: la', y :: lb' =>
             if same_or_equal x y then go la' lb' else py_lt x y
         end) la lb
  | _, _ =>
      match num_of a, num_of b with
      | Some x, Some y => Some (float_ltb x y)
      | _, _ => None
      end
  end.

Definition py_ltb (a b : value) : bool :=
  match py_lt a b with
  | Some true => true
  | _ => false
  end.

Definition comparable (a b : value) : bool :=
  match py_lt a b with
  | Some _ => true
  | None => false
  end.

(* ------------------------------------------------------------------ *)
(** ** Stable sorting *)

Section StableSort.
Context {A : Type}.
(** [before x y]: [x] must come strictly before [y]. *)
Variable before : A -> A -> bool.

Fixpoint insert (x : A) (l : list A) : list A :=
  match l with
  | [] => [x]
  | y :: l' => if before y x then y :: insert x l' else x :: l
  end.

Fixpoint stable_sort (l : list A) : list A :=
  match l with
  | [] => []
  | x :: l' => insert x (stable_sort l')
  end.

(** [x] does not have to come after [y]. *)
Definition not_after (x y : A) : Prop := before y x = false.
End StableSort.

(* ------------------------------------------------------------------ *)
(** ** The builtin [list.sort] *)

(** A number other than NaN, a number, a string. *)
Definition is_number (v : value) : bool :=
  match num_of v with Some _ => true | None => false end.

Definition is_real (v : value) : bool :=
  match num_of v with Some x => negb (is_nan x) | None => false end.

Definition is_str (v : value) : bool :=
  match v with VStr _ => true | _ => false end.

(** A number or a string. *)
Definition scalar (v : value) : bool := is_number v || is_str v.

(** Keys that Python orders consistently: numbers without a NaN among
    them, or strings. *)
Definition ordered_keys (ks : list value) : bool :=
  forallb is_real ks || forallb is_str ks.

(** Keys whose comparisons cannot raise: numbers, or strings. *)
Definition safe_keys (ks : list value) : bool :=
  forallb is_number ks || forallb is_str ks.

(** The order in which [list.sort] arranges a list of (key, item) pairs:
    ascending by key, or descending when [reverse] is set. *)
Definition before_key (reverse : bool) (x y : value * value) : bool :=
  if reverse then py_ltb (fst y) (fst x) else py_ltb (fst x) (fst y).

(** The sort of a list of (key, item) pairs by key, as [list.sort] runs it
    once the keys are computed. *)
Definition sorter : Type :=
  bool -> list (value * value) -> result (list (value * value)).

(** What is known of [list.sort] for every input:
    - a list of at most one element is returned as it is, without a
      comparison;
    - on keys that Python orders consistently the result is the stable
      sort, in both directions;
    - on keys whose comparisons cannot raise the sort returns;
    - a result is a permutation of the input;
    - the only exception is the [TypeError] of a comparison. *)
Record sort_contract (srt : sorter) : Prop := {
  sort_short :
    forall reverse l, (List.length l <= 1)%nat -> srt reverse l = Ok l;
  sort_ordered :
    forall reverse l, ordered_keys (map fst l) = true ->
      srt reverse l = Ok (stable_sort (before_key reverse) l);
  sort_returns :
    forall reverse l, safe_keys (map fst l) = true ->
      exists l', srt reverse l = Ok l';
  sort_perm :
    forall reverse l l', srt reverse l = Ok l' -> Permutation l' l;
  sort_raises :
    forall reverse l e, srt reverse l = Err e -> e = TypeError;
}.

(** One sort that meets the contract: the stable insertion sort, raising
    [TypeError] when two of the keys cannot be compared.  It is CPython's
    result wherever the contract fixes it, and on two keys.  Elsewhere (a
    NaN among three or more keys, keys of which only some pairs can be
    compared) CPython's result depends on the order of its comparisons and
    may differ; no theorem below relies on the reference sort there. *)
Definition all_comparable (ks : list value) : bool :=
  forallb (fun a => forallb (comparable a) ks) ks.

Definition reference_sort : sorter :=
  fun reverse l =>
    if (List.length l <=? 1)%nat then Ok l
    else if all_comparable (map fst l)
         then Ok (stable_sort (before_key reverse) l)
         else Err TypeError.

(** [l.sort(key=keyf, reverse=reverse)]: the keys are computed first, then
    the pairs are sorted by key. *)
Definition list_sort (srt : sorter) (keyf : value -> result value)
  (reverse : bool) (l : list value) : result (list value) :=
  ks <- mapM keyf l ;;
  sorted <- srt reverse (combine ks l) ;;
  Ok (map snd sorted).

(* ------------------------------------------------------------------ *)
(** ** The files the server reads *)

(** An entry of the assets directory: its modification time and what
    [read_text(encoding="utf-8")] gives for it, the text or the exception
    ([IsADirectoryError] for a directory, [UnicodeDecodeError] for bytes
    that are not UTF-8, [FileNotFoundError] for a link to nothing). *)
Record node : Type := {
  mtime : Z;
  read_text : result string;
}.

(** A path below the assets directory, by its parts. *)
Definition path : Type := list string.

(** The dataset file [data/stays.json] is described by what reading and
    parsing it gives: absent, a directory, not UTF-8 text, text that is not
    JSON, or the JSON document it holds.  [glob] is [assets_dir.glob]: for
    a pattern, the paths it yields below [web/dist/assets] with their
    entries, in the order the directory lists them (nothing when the
    directory is missing), or the exception it raises on the pattern. *)
Inductive source : Type :=
| Absent
| NotAFile
| NotText
| NotJson
| Json (doc : value).

Record world : Type := {
  data_file : source;
  glob : string -> result (list (path * node));
}.

(** [load_stays], lines 18-19. *)
Definition load_stays (w : world) : result value :=
  match data_file w with
  | Absent => Err FileNotFoundError
  | NotAFile => Err IsADirectoryError
  | NotText => Err UnicodeDecodeError
  | NotJson => Err JSONDecodeError
  | Json doc => Ok doc
  end.

(** The order of paths: part by part, each part by code points. *)
Fixpoint path_compare (p q : path) : comparison :=
  match p, q with
  | [], [] => Eq
  | [], _ :: _ => Lt
  | _ :: _, [] => Gt
  | x :: p', y :: q' =>
      match String.compare x y with
      | Eq => path_compare p' q'
      | c => c
      end
  end.

Definition path_ltb (p q : path) : bool :=
  match path_compare p q with Lt => true | _ => false end.

Definition path_leb (p q : path) : bool :=
  match path_compare p q with Gt => false | _ => true end.

(** [sorted(paths)]. *)
Definition sorted_paths (l : list (path * node)) : list (path * node) :=
  stable_sort (fun a b => path_ltb (fst a) (fst b)) l.

(** [find_built_asset], lines 21-29. *)
Definition find_built_asset (suffix : string) (w : world) : result string :=
  found <- glob w ("*" ++ suffix) ;;
  let candidates := sorted_paths found in
  match rev candidates with
  | [] => Err FileNotFoundError
  | p :: _ => read_text (snd p)
  end.

(* ------------------------------------------------------------------ *)
(** ** The widget resource *)

(** The line feed and the double quote of the template. *)
Definition LF : string := String (ascii_of_nat 10) EmptyString.
Definition DQ : string := String (ascii_of_nat 34) EmptyString.

(** The f-string of lines 38-44, before [.strip()]. *)
Definition widget_template (css js : string) : string :=
  LF ++ "<div id=" ++ DQ ++ "root" ++ DQ ++ "></div>" ++ LF
     ++ "<style>" ++ css ++ "</style>" ++ LF
     ++ "<script type=" ++ DQ ++ "module" ++ DQ ++ ">" ++ LF
     ++ js ++ LF
     ++ "</script>" ++ LF.

(** [build_widget_html], lines 31-44: the script is looked up first, then
    the style sheet. *)
Definition build_widget_html (w : world) : result string :=
  js <- find_built_asset ".js" w ;;
  css <- find_built_asset ".css" w ;;
  Ok (PyStr.strip (widget_template css js)).

(** [ResourceContent] and [ResourceResult] as [stays_widget] fills them. *)
Record ResourceContent : Type := {
  content : string;
  mime_type : string;
}.

Record ResourceResult : Type := {
  contents : list ResourceContent;
  widget_prefers_border : bool;
}.

(** [stays_widget], lines 65-72. *)
Definition stays_widget (w : world) : result ResourceResult :=
  html <- build_widget_html w ;;
  Ok {| contents := [ {| content := html;
                         mime_type := "text/html+skybridge" |} ];
        widget_prefers_border := true |}.

(* ------------------------------------------------------------------ *)
(** ** The query tool *)

(** The [sort] argument, [Literal["rating", "price"]]. *)
Inductive sort_key : Type := rating | price.

Definition sort_eq_rating (s : sort_key) : bool :=
  match s with rating => true | price => false end.

Definition sort_field (sort : sort_key) : string :=
  if sort_eq_rating sort then "rating" else "price_per_night".

(** The tool's answer: the summary text and the structured content (the
    response meta data is constant and left out). *)
Record ToolResult : Type := {
  text : string;
  city : string;
  results : list value;
  selected : option value;
  applied_min_rating : option pyfloat;
  applied_sort : sort_key;
}.

(** Truth value of a [str]: only the empty string is false. *)
Definition truthy (s : string) : bool :=
  match s with
  | EmptyString => false
  | String _ _ => true
  end.

(** The loop of lines 118-121: the first record whose [id] equals
    [selected_id]; reading [s["id"]] may raise on the way. *)
Fixpoint scan (selected_id : string) (l : list value)
  : result (option value) :=
  match l with
  | [] => Ok None
  | s :: l' =>
      i <- subscript s "id" ;;
      if eq_str i selected_id then Ok (Some s) else scan selected_id l'
  end.

(** The test of line 107. *)
Definition city_test (city_norm : string) (s : value) : result bool :=
  c <- subscript s "city" ;;
  lc <- py_lower c ;;
  Ok (lc =? city_norm)%string.

Section Server.

(** The builtin sort. *)
Variable srt : sorter.

(** [float(t)] for a [str] [t], Python's parser of numbers: [None] where
    it raises [ValueError]. *)
Variable float_of_str : string -> option pyfloat.

(** [float(o)]. *)
Definition py_float (o : value) : result pyfloat :=
  match o with
  | VFloat f => Ok f
  | VInt z => float_of_int z
  | VBool b => Ok (FFin (if b then 1%Q else 0%Q))
  | VStr t =>
      match float_of_str t with
      | Some f => Ok f
      | None => Err ValueError
      end
  | _ => Err TypeError
  end.

(** The test of line 110; [min_rating] is a [float] already. *)
Definition rating_test (min_rating : pyfloat) (s : value) : result bool :=
  r <- py_get s "rating" (VInt 0) ;;
  x <- py_float r ;;
  Ok (float_leb min_rating x).

(** [explore_stays], lines 98-138. *)
Definition explore_stays (city : string) (min_rating : option pyfloat)
  (sort : sort_key) (selected_id : option string) (w : world)
  : result ToolResult :=
  stays <- load_stays w ;;
  let city_norm := PyStr.lower (PyStr.strip city) in
  items <- py_iter stays ;;
  filtered <- filterM (city_test city_norm) items ;;
  filtered <- match min_rating with
              | Some r => filterM (rating_test r) filtered
              | None => Ok filtered
              end ;;
  let reverse := sort_eq_rating sort in
  let key := sort_field sort in
  filtered <- list_sort srt (fun s => py_get s key (VInt 0)) reverse
                filtered ;;
  selected <- match selected_id with
              | Some i => if truthy i then scan i filtered else Ok None
              | None => Ok None
              end ;;
  Ok {| text := "Found " ++ PyStr.of_nat (List.length filtered)
                  ++ " stays in " ++ PyStr.strip city ++ ".";
        city := PyStr.strip city;
        results := filtered;
        selected := selected;
        applied_min_rating := min_rating;
        applied_sort := sort |}.

End Server.

(* ------------------------------------------------------------------ *)
(** ** Vocabulary of the properties *)

(** What the fields of a record read as; these total readings are used to
    state the properties and are related to the code's tests below. *)

Definition is_dict (s : value) : bool :=
  match s with VDict _ => true | _ => false end.

Definition field (k : string) (s : value) : option value :=
  match s with
  | VDict items => dict_lookup k items
  | _ => None
  end.

Definition has_field (k : string) (s : value) : bool :=
  match field k s with Some _ => true | None => false end.

(** The record's city is a string equal, ignoring case, to the trimmed
    [city]. *)
Definition city_matches (city : string) (s : value) : bool :=
  match field "city" s with
  | Some (VStr c) => (PyStr.lower c =? PyStr.lower (PyStr.strip city))%string
  | _ => false
  end.

(** A record with a usable city: the [city] key is there and holds a
    string. *)
Definition has_str_city (s : value) : bool :=
  match field "city" s with
  | Some (VStr _) => true
  | _ => false
  end.

(** The value the sort compares: the field, 0 when it is missing. *)
Definition sort_value (k : string) (s : value) : value :=
  match field k s with
  | Some v => v
  | None => VInt 0
  end.

(** The record's [id] equals [i]. *)
Definition has_id (i : string) (s : value) : bool :=
  match field "id" s with
  | Some v => eq_str v i
  | None => false
  end.

(** Order on sort keys: numbers by value, strings by code points. *)
Definition py_le (a b : value) : Prop :=
  match num_of a, num_of b with
  | Some x, Some y => float_leb x y = true
  | _, _ =>
      match a, b with
      | VStr s, VStr t => String.leb s t = true
      | _, _ => False
      end
  end.

(** Equal keys: equal numbers, or the same string. *)
Definition same_key (a b : value) : bool :=
  match num_of a, num_of b with
  | Some x, Some y => float_eqb x y
  | _, _ =>
      match a, b with
      | VStr s, VStr t => (s =? t)%string
      | _, _ => false
      end
  end.

Section Readings.
Variable float_of_str : string -> option pyfloat.

(** The record's rating as [float()] reads it, 0 when the field is
    missing; [None] when [float()] raises. *)
Definition rating_of (s : value) : option pyfloat :=
  match py_float float_of_str (sort_value "rating" s) with
  | Ok x => Some x
  | Err _ => None
  end.

(** The record passes the test of line 110: [float(rating)] is at least
    [min_rating]. *)
Definition rating_ok (min_rating : option pyfloat) (s : value) : bool :=
  match min_rating with
  | None => true
  | Some r =>
      match rating_of s with
      | Some x => float_leb r x
      | None => false
      end
  end.

(** The records of the dataset a query keeps. *)
Definition keeps (city : string) (min_rating : option pyfloat) (s : value)
  : bool :=
  city_matches city s && rating_ok min_rating s.
End Readings.

(** A number that [float()] converts: a [float], or an [int] within the
    range of doubles. *)
Definition is_float_like (v : value) : bool :=
  match v with
  | VFloat _ => true
  | VInt z => match float_of_int z with Ok _ => true | Err _ => false end
  | _ => false
  end.

(** A record of the shape the data model describes: an object with string
    [id] and [city], a rating that is a number [float()] converts and a
    price that is a number, when present. *)
Definition well_formed (s : value) : bool :=
  is_dict s
  && has_str_city s
  && match field "id" s with Some (VStr _) => true | _ => false end
  && is_float_like (sort_value "rating" s)
  && is_number (sort_value "price_per_night" s).

(** The order of the answer: descending by rating, or ascending by price;
    [ordered] is the stable arrangement of a list in that order. *)
Definition before_value (sort : sort_key) (x y : value) : bool :=
  let k := sort_field sort in
  if sort_eq_rating sort
  then py_ltb (sort_value k y) (sort_value k x)
  else py_ltb (sort_value k x) (sort_value k y).

Definition ordered (sort : sort_key) (l : list value) : list value :=
  stable_sort (before_value sort) l.

(** The sort keys of a list of records. *)
Definition keys_of (sort : sort_key) (l : list value) : list value :=
  map (sort_value (sort_field sort)) l.

(** The record a query selects in its answer [l]: the first with the given
    id, none when no id or an empty id is given. *)
Definition selection (selected_id : option string) (l : list value)
  : option value :=
  match selected_id with
  | Some i => if truthy i then find (has_id i) l else None
  | None => None
  end.

(** A most recently modified entry among those a pattern yields. *)
Definition most_recent (pattern : string) (w : world) (e : path * node)
  : Prop :=
  exists found,
    glob w pattern = Ok found /\ In e found
    /\ forall e', In e' found -> (mtime (snd e') <= mtime (snd e))%Z.

(** The first entry, in the order of paths, among those a pattern
    yields. *)
Definition first_sorted (pattern : string) (w : world) (e : path * node)
  : Prop :=
  exists found,
    glob w pattern = Ok found /\ In e found
    /\ forall e', In e' found -> path_leb (fst e) (fst e') = true.

(** The first and the last character of a string. *)
Definition first_char (s : string) : option ascii :=
  match s with
  | EmptyString => None
  | String c _ => Some c
  end.

Fixpoint last_char (s : string) : option ascii :=
  match s with
  | EmptyString => None
  | String c EmptyString => Some c
  | String _ s' => last_char s'
  end.

Definition not_space (o : option ascii) : Prop :=
  match o with
  | Some c => PyStr.is_space c = false
  | None => True
  end.

(** The page [build_widget_html] returns for a style sheet and a script. *)
Definition widget_page (css js : string) : string :=
  "<div id=" ++ DQ ++ "root" ++ DQ ++ "></div>" ++ LF
     ++ "<style>" ++ css ++ "</style>" ++ LF
     ++ "<script type=" ++ DQ ++ "module" ++ DQ ++ ">" ++ LF
     ++ js ++ LF
     ++ "</script>".

(** The answer of a query with the selection replaced. *)
Definition with_selected (r : ToolResult) (sel : option value) : ToolResult :=
  {| text := text r;
     city := city r;
     results := results r;
     selected := sel;
     applied_min_rating := applied_min_rating r;
     applied_sort := applied_sort r |}.

(* ------------------------------------------------------------------ *)
(** ** Sample data *)

(** A finite float as a JSON value. *)
Definition vfloat (q : Q) : value := VFloat (FFin q).

(** The three stays of the specification's examples. *)
Definition stay_a : value :=
  VDict [("id", VStr "a"); ("city", VStr "Paris");
         ("rating", vfloat (9 # 2)%Q); ("price_per_night", VInt 120)].

Definition stay_b : value :=
  VDict [("id", VStr "b"); ("city", VStr "paris");
         ("rating", vfloat (3 # 1)%Q); ("price_per_night", VInt 80)].

Definition stay_c : value :=
  VDict [("id", VStr "c"); ("city", VStr "Rome");
         ("rating", vfloat (5 # 1)%Q); ("price_per_night", VInt 200)].

(** A stay whose id is the empty string, and one without a city. *)
Definition stay_blank_id : value :=
  VDict [("id", VStr ""); ("city", VStr "Oslo")].

Definition stay_no_city : value :=
  VDict [("id", VStr "d"); ("rating", vfloat (4 # 1)%Q)].

(** A stay whose rating is a piece of text. *)
Definition stay_text_rating : value :=
  VDict [("id", VStr "e"); ("city", VStr "Paris"); ("rating", VStr "high")].

(** A stay of Paris without an id, rated below [stay_a]. *)
Definition stay_no_id : value :=
  VDict [("city", VStr "Paris"); ("rating", vfloat (1 # 1)%Q)].

(** A stay whose rating is an integer that is not a double: [float()]
    rounds it up by one; and a stay whose rating is beyond every double. *)
Definition stay_big : value :=
  VDict [("id", VStr "g"); ("city", VStr "Rio");
         ("rating", VInt 9007199254740995)].

Definition stay_huge : value :=
  VDict [("id", VStr "h"); ("city", VStr "Rio"); ("rating", VInt (10 ^ 309))].

(** Two stays of Lima, the first rated NaN. *)
Definition stay_nan : value :=
  VDict [("id", VStr "n"); ("city", VStr "Lima"); ("rating", VFloat FNaN)].

Definition stay_lima : value :=
  VDict [("id", VStr "m"); ("city", VStr "Lima");
         ("rating", vfloat (1 # 1)%Q)].

(** Two stays of Bern whose ratings are lists. *)
Definition stay_l1 : value :=
  VDict [("id", VStr "l1"); ("city", VStr "Bern");
         ("rating", VList [VInt 1])].

Definition stay_l2 : value :=
  VDict [("id", VStr "l2"); ("city", VStr "Bern");
         ("rating", VList [VInt 2])].

(** Two builds of the script left in the assets directory: the older one
    has the later name. *)
Definition script_new : path * node :=
  (["index-1a2b.js"], {| mtime := 200; read_text := Ok "console.log(2)" |}).

Definition script_old : path * node :=
  (["index-9f8e.js"], {| mtime := 100; read_text := Ok "console.log(1)" |}).

Definition style_sheet : path * node :=
  (["index-77aa.css"], {| mtime := 200; read_text := Ok "body{}" |}).

Definition sample_glob (pattern : string) : result (list (path * node)) :=
  if (pattern =? "*.js")%string then Ok [script_new; script_old]
  else if (pattern =? "*.css")%string then Ok [style_sheet]
  else Ok [].

(** The same directory listed in another order. *)
Definition relisted_glob (pattern : string) : result (list (path * node)) :=
  if (pattern =? "*.js")%string then Ok [script_old; script_new]
  else if (pattern =? "*.css")%string then Ok [style_sheet]
  else Ok [].

(** No assets directory: no pattern yields anything. *)
Definition no_assets (pattern : string) : result (list (path * node)) :=
  Ok [].

Definition dataset_world (D : list value) : world :=
  {| data_file := Json (VList D); glob := no_assets |}.

Definition sample_world : world :=
  {| data_file := Json (VList [stay_a; stay_b; stay_c]);
     glob := sample_glob |}.

Definition relisted_world : world :=
  {| data_file := Absent; glob := relisted_glob |}.

Definition blank_id_world : world := dataset_world [stay_blank_id].
Definition no_city_world : world := dataset_world [stay_a; stay_no_city].
Definition text_rating_world : world :=
  dataset_world [stay_a; stay_text_rating].
Definition no_id_world : world := dataset_world [stay_no_id; stay_a].
Definition big_world : world := dataset_world [stay_big].
Definition huge_world : world := dataset_world [stay_huge].
Definition nan_world : world := dataset_world [stay_nan; stay_lima].
Definition list_world : world := dataset_world [stay_l1; stay_l2].

Definition missing_data_world : world :=
  {| data_file := Absent; glob := sample_glob |}.

(** A dataset file that wraps the array in an object. *)
Definition object_world : world :=
  {| data_file := Json (VDict [("stays", VList [stay_a; stay_b])]);
     glob := no_assets |}.

(** [float()] on the strings of the sample data: the only rating there
    that is a string is "high", which [float()] rejects.  This stand-in
    rejects every string and is used on the sample data only; the theorems
    hold for every [float_of_str]. *)
Definition no_float (t : string) : option pyfloat := None.

(** The query with the reference sort and that [float()]. *)
Definition query : string -> option pyfloat -> sort_key -> option string
                   -> world -> result ToolResult :=
  explore_stays reference_sort no_float.


(* ================================================================== *)
(** * Properties *)

(** ** Python strings *)

Example strip_lower_paris :
  PyStr.lower (PyStr.strip "  PaRis
") = "paris".
Proof. reflexivity. Qed.

Example strip_inner_space : PyStr.strip " New  York " = "New  York".
Proof. reflexivity. Qed.

Example ends_with_js :
  PyStr.ends_with ".js" "index-a1b2.js" = true
  /\ PyStr.ends_with ".js" "index.css" = false
  /\ PyStr.ends_with ".js" "js" = false.
Proof. repeat split; reflexivity. Qed.

Example of_nat_12 : PyStr.of_nat 12 = "12" /\ PyStr.of_nat 0 = "0".
Proof. split; reflexivity. Qed.

(** ** Results *)

Lemma bind_ok {A B : Type} (m : result A) (k : A -> result B) (b : B) :
  bind m k = Ok b -> exists a, m = Ok a /\ k a = Ok b.
Proof.
  destruct m as [a | e]; simpl; intros H; [eauto | discriminate].
Qed.

Ltac inv_bind H :=
  let a := fresh "a" in
  let Ha := fresh "Ha" in
  apply bind_ok in H; destruct H as (a & Ha & H).

Lemma filterM_filter {A : Type} (p : A -> result bool) (q : A -> bool) :
  (forall x b, p x = Ok b -> q x = b) ->
  forall l r, filterM p l = Ok r -> r = filter q l.
Proof.
  intros Hpq l; induction l as [| x l IH]; simpl; intros r H.
  - now inversion H.
  - inv_bind H. inv_bind H. inversion H; subst; clear H.
    rewrite (Hpq _ _ Ha), (IH _ Ha0). reflexivity.
Qed.


Lemma filterM_total {A : Type} (p : A -> result bool) (q : A -> bool) :
  forall l, Forall (fun x => p x = Ok (q x)) l ->
  filterM p l = Ok (filter q l).
Proof.
  induction 1 as [| x l Hx _ IH]; simpl; [reflexivity |].
  rewrite Hx, IH. reflexivity.
Qed.


Lemma mapM_map {A B : Type} (f : A -> result B) (g : A -> B) :
  forall l, Forall (fun x => f x = Ok (g x)) l -> mapM f l = Ok (map g l).
Proof.
  induction 1 as [| x l Hx _ IH]; simpl; [reflexivity |].
  rewrite Hx, IH. reflexivity.
Qed.

Lemma filter_and {A : Type} (p q : A -> bool) (l : list A) :
  filter q (filter p l) = filter (fun x => p x && q x) l.
Proof.
  induction l as [| x l IH]; simpl; [reflexivity |].
  destruct (p x); simpl; [destruct (q x) |]; now rewrite IH.
Qed.


Lemma Forall_filter {A : Type} (P : A -> Prop) (p : A -> bool) (l : list A) :
  Forall P l -> Forall P (filter p l).
Proof.
  rewrite !Forall_forall. intros H x Hx.
  apply filter_In in Hx as (Hx & _). auto.
Qed.

Lemma find_first {A : Type} (p : A -> bool) (l : list A) :
  match find p l with
  | Some s => exists l1 l2, l = l1 ++ s :: l2 /\ p s = true
                            /\ Forall (fun x => p x = false) l1
  | None => Forall (fun x => p x = false) l
  end.
Proof.
  induction l as [| x l IH]; simpl; [constructor |].
  destruct (p x) eqn:E.
  - exists [], l. auto.
  - destruct (find p l) as [s |].
    + destruct IH as (l1 & l2 & -> & Hs & Hl1).
      exists (x :: l1), l2. auto.
    + now constructor.
Qed.

Lemma filter_none {A : Type} (p : A -> bool) (l : list A) :
  Forall (fun x => p x = false) l -> filter p l = [].
Proof.
  induction 1 as [| x l Hx _ IH]; simpl; [reflexivity |]. now rewrite Hx.
Qed.

Lemma filterM_first_error {A : Type} (p : A -> result bool)
  (l1 l2 : list A) (x : A) (e : exn) :
  Forall (fun y => exists b, p y = Ok b) l1 -> p x = Err e ->
  filterM p (l1 ++ x :: l2) = Err e.
Proof.
  induction 1 as [| y l1 (b & Hy) _ IH]; simpl; intros Hx.
  - now rewrite Hx.
  - rewrite Hy, (IH Hx). reflexivity.
Qed.

Lemma filter_perm {A : Type} (p : A -> bool) (l l' : list A) :
  Permutation l l' -> Permutation (filter p l) (filter p l').
Proof.
  induction 1 as [| x l l' _ IH | x y l | l l' l'' _ IH1 _ IH2]; simpl.
  - constructor.
  - destruct (p x); [now constructor | exact IH].
  - destruct (p x), (p y); try reflexivity. apply perm_swap.
  - now transitivity (filter p l').
Qed.


Example float_of_int_rounds :
  float_of_int 9007199254740995 = Ok (FFin (inject_Z 9007199254740996))
  /\ float_of_int 9007199254740993 = Ok (FFin (inject_Z 9007199254740992))
  /\ float_of_int (-9007199254740995)
     = Ok (FFin (inject_Z (-9007199254740996)))
  /\ float_of_int (10 ^ 309) = Err OverflowError
  /\ float_of_int (2 ^ 1024 - 2 ^ 970 - 1)
     = Ok (FFin (inject_Z (2 ^ 1024 - 2 ^ 971)))
  /\ float_of_int (2 ^ 1024 - 2 ^ 970) = Err OverflowError.
Proof. repeat split; vm_compute; reflexivity. Qed.

Example py_lt_lists :
  py_lt (VList [VInt 1]) (VList [VInt 2]) = Some true
  /\ py_lt (VList [VInt 1; VStr "a"]) (VList [VInt 1; VInt 2]) = None
  /\ py_lt (VList [VInt 1; VStr "a"]) (VList [VFloat (FFin 1); VStr "b"])
     = Some true
  /\ py_lt (VList [VFloat FNaN]) (VList [VFloat FNaN; VInt 0]) = Some true
  /\ py_lt (VList []) (VInt 0) = None
  /\ py_lt (VInt (2 ^ 53 + 1)) (VFloat (FFin (inject_Z (2 ^ 53)))) = Some false
  /\ py_lt (VFloat FNaN) (VInt 0) = Some false.
Proof. repeat split; vm_compute; reflexivity. Qed.

(** ** Stable sorting *)

Section StableSortFacts.
Context {A : Type}.
Variable before : A -> A -> bool.

Lemma insert_perm (x : A) (l : list A) :
  Permutation (insert before x l) (x :: l).
Proof.
  induction l as [| y l IH]; simpl; [reflexivity |].
  destruct (before y x); [| reflexivity].
  rewrite IH. apply perm_swap.
Qed.

Lemma stable_sort_perm (l : list A) :
  Permutation (stable_sort before l) l.
Proof.
  induction l as [| x l IH]; simpl; [reflexivity |].
  rewrite insert_perm. now constructor.
Qed.

Lemma stable_sort_in (l : list A) (x : A) :
  In x (stable_sort before l) <-> In x l.
Proof.
  split; apply Permutation_in;
    [| symmetry]; apply stable_sort_perm.
Qed.

Lemma stable_sort_short (l : list A) :
  (List.length l <= 1)%nat -> stable_sort before l = l.
Proof.
  destruct l as [| x [| y l]]; simpl; intros H; try reflexivity. lia.
Qed.

Lemma insert_sorted (x : A) (l : list A) :
  (forall y, In y l -> before y x = true -> before x y = false) ->
  Sorted (not_after before) l -> Sorted (not_after before) (insert before x l).
Proof.
  intros Hasym Hs. induction Hs as [| y l Hl IH Hy]; simpl.
  - repeat constructor.
  - destruct (before y x) eqn:E.
    + constructor; [apply IH; intros; apply Hasym; simpl; auto |].
      destruct l as [| z l]; simpl.
      * constructor. apply Hasym; simpl; auto.
      * destruct (before z x); constructor;
          [now inversion Hy | apply Hasym; simpl; auto].
    + constructor; [now constructor | constructor; exact E].
Qed.

Lemma stable_sort_sorted (l : list A) :
  (forall x y, In x l -> In y l -> before x y = true -> before y x = false) ->
  Sorted (not_after before) (stable_sort before l).
Proof.
  induction l as [| x l IH]; simpl; intros Hasym; [constructor |].
  apply insert_sorted.
  - intros y Hy. apply (proj1 (stable_sort_in _ _)) in Hy.
    apply Hasym; simpl; auto.
  - apply IH. intros; apply Hasym; simpl; auto.
Qed.

(** Stability: the members of a class no two of which are ordered keep
    their order. *)
Lemma insert_filter (p : A -> bool) (x : A) (l : list A) :
  (forall y, In y l -> p x = true -> p y = true -> before y x = false) ->
  filter p (insert before x l) = filter p (x :: l).
Proof.
  induction l as [| y l IH]; intros H; [reflexivity |].
  simpl insert. destruct (before y x) eqn:E; [| reflexivity].
  assert (IH' : filter p (insert before x l) = filter p (x :: l))
    by (apply IH; intros; apply H; simpl; auto).
  simpl in *. rewrite IH'.
  destruct (p x) eqn:Px; [| reflexivity].
  destruct (p y) eqn:Py; [| reflexivity].
  rewrite H in E; auto; discriminate.
Qed.

Lemma stable_sort_filter (p : A -> bool) (l : list A) :
  (forall x y, In x l -> In y l ->
     p x = true -> p y = true -> before x y = false) ->
  filter p (stable_sort before l) = filter p l.
Proof.
  induction l as [| x l IH]; intros H; [reflexivity |].
  simpl stable_sort. rewrite insert_filter.
  - simpl. rewrite IH; [reflexivity |].
    intros; apply H; simpl; auto.
  - intros y Hy Px Py. apply (proj1 (stable_sort_in _ _)) in Hy.
    apply H; simpl; auto.
Qed.

(** With an asymmetric, transitive order the last element is a greatest
    one. *)
Hypothesis before_asym :
  forall x y, before x y = true -> before y x = false.

Hypothesis not_after_trans :
  forall x y z,
    not_after before x y -> not_after before y z -> not_after before x z.

Lemma strongly_sorted_last (l : list A) (x : A) (t : list A) :
  StronglySorted (not_after before) l -> rev l = x :: t ->
  forall y, In y l -> y = x \/ not_after before y x.
Proof.
  intros Hs; revert x t.
  induction Hs as [| a l Hs IH Ha]; intros x t Hrev y Hy;
    [contradiction |].
  simpl in Hrev. destruct (rev l) as [| z t'] eqn:Er.
  - assert (l = []) by (now rewrite <- (rev_involutive l), Er). subst.
    simpl in Hrev. inversion Hrev; subst.
    destruct Hy as [-> | []]. now left.
  - simpl in Hrev. inversion Hrev; subst z t. clear Hrev.
    assert (Hx : In x l) by (apply in_rev; rewrite Er; now left).
    destruct Hy as [-> | Hy].
    + right. rewrite Forall_forall in Ha. now apply Ha.
    + now apply (IH x t').
Qed.

Lemma stable_sort_last (l : list A) (x : A) (t : list A) :
  rev (stable_sort before l) = x :: t ->
  In x l /\ forall y, In y l -> y = x \/ not_after before y x.
Proof.
  intros Hrev. split.
  - apply stable_sort_in, in_rev. rewrite Hrev. now left.
  - intros y Hy. apply (strongly_sorted_last (stable_sort before l) x t); auto.
    + apply Sorted_StronglySorted.
      * intros a b c. apply not_after_trans.
      * apply stable_sort_sorted. intros a b _ _. apply before_asym.
    + now apply stable_sort_in.
Qed.
End StableSortFacts.

(** Sorting commutes with decorating the elements by their keys. *)
Lemma insert_map {A B : Type} (f : A -> B)
  (beforeA : A -> A -> bool) (beforeB : B -> B -> bool) :
  (forall x y, beforeB (f x) (f y) = beforeA x y) ->
  forall x l, insert beforeB (f x) (map f l) = map f (insert beforeA x l).
Proof.
  intros H x l; induction l as [| y l IH]; simpl; [reflexivity |].
  rewrite H. destruct (beforeA y x); simpl; [now rewrite IH | reflexivity].
Qed.

Lemma stable_sort_map {A B : Type} (f : A -> B)
  (beforeA : A -> A -> bool) (beforeB : B -> B -> bool) :
  (forall x y, beforeB (f x) (f y) = beforeA x y) ->
  forall l, stable_sort beforeB (map f l) = map f (stable_sort beforeA l).
Proof.
  intros H l; induction l as [| x l IH]; simpl; [reflexivity |].
  rewrite IH. now apply insert_map.
Qed.

Lemma Sorted_weaken {A : Type} (R R' : A -> A -> Prop) (l : list A) :
  (forall x y, In x l -> In y l -> R x y -> R' x y) ->
  Sorted R l -> Sorted R' l.
Proof.
  intros H Hs; induction Hs as [| x l Hs IH Hx]; constructor.
  - apply IH. intros; apply H; simpl; auto.
  - destruct Hx as [| y l Hxy]; constructor.
    apply H; simpl; auto.
Qed.

Lemma Sorted_short {A : Type} (R : A -> A -> Prop) (l : list A) :
  (List.length l < 2)%nat -> Sorted R l.
Proof.
  destruct l as [| x [| y l]]; simpl; intros H;
    [constructor | repeat constructor | lia].
Qed.

(** ** The order on strings *)

Lemma compare_refl (s : string) : String.compare s s = Eq.
Proof.
  pose proof (String.compare_antisym s s) as H.
  destruct (String.compare s s); simpl in H; congruence.
Qed.

Lemma ltb_irrefl (s : string) : String.ltb s s = false.
Proof. unfold String.ltb. now rewrite compare_refl. Qed.

Lemma ltb_asym (s t : string) :
  String.ltb s t = true -> String.ltb t s = false.
Proof.
  unfold String.ltb. rewrite (String.compare_antisym s t).
  destruct (String.compare t s); simpl; congruence.
Qed.

Lemma not_ltb_leb (s t : string) :
  String.ltb t s = false -> String.leb s t = true.
Proof.
  unfold String.ltb, String.leb. rewrite (String.compare_antisym t s).
  destruct (String.compare s t); simpl; congruence.
Qed.

Lemma ascii_compare_nat (a b : ascii) :
  Ascii.compare a b = N.compare (N_of_ascii a) (N_of_ascii b).
Proof. reflexivity. Qed.

(** [s <= t <= u] gives [s <= u], with [<=] read as "not greater". *)
Lemma compare_not_gt_trans (s t u : string) :
  String.compare s t <> Gt -> String.compare t u <> Gt ->
  String.compare s u <> Gt.
Proof.
  revert t u; induction s as [| a s IH]; intros [| b t] [| c u]; simpl;
    try congruence.
  rewrite !ascii_compare_nat.
  destruct (N.compare_spec (N_of_ascii a) (N_of_ascii b)) as [E1 | L1 | G1];
    destruct (N.compare_spec (N_of_ascii b) (N_of_ascii c)) as [E2 | L2 | G2];
    try congruence; intros H1 H2.
  - rewrite E1, E2, N.compare_refl. now apply (IH t).
  - rewrite E1. now apply N.compare_lt_iff in L2 as ->.
  - rewrite <- E2. now apply N.compare_lt_iff in L1 as ->.
  - assert (L : (N_of_ascii a < N_of_ascii c)%N) by lia.
    apply N.compare_lt_iff in L as ->. congruence.
Qed.

Lemma not_ltb_trans (s t u : string) :
  String.ltb t s = false -> String.ltb u t = false -> String.ltb u s = false.
Proof.
  unfold String.ltb.
  rewrite (String.compare_antisym t s), (String.compare_antisym u t),
    (String.compare_antisym u s).
  pose proof (compare_not_gt_trans s t u) as H.
  destruct (String.compare s t), (String.compare t u),
    (String.compare s u); simpl in *; intros; try reflexivity;
    try discriminate; exfalso; apply H; congruence.
Qed.

Lemma leb_refl (s : string) : String.leb s s = true.
Proof. unfold String.leb. now rewrite compare_refl. Qed.


(** ** Trimming and lower-casing *)

Lemma is_space_lower_char (c : ascii) :
  PyStr.is_space (PyStr.lower_char c) = PyStr.is_space c.
Proof.
  destruct c as [b0 b1 b2 b3 b4 b5 b6 b7].
  destruct b0, b1, b2, b3, b4, b5, b6, b7; reflexivity.
Qed.

Lemma lower_char_idem (c : ascii) :
  PyStr.lower_char (PyStr.lower_char c) = PyStr.lower_char c.
Proof.
  destruct c as [b0 b1 b2 b3 b4 b5 b6 b7].
  destruct b0, b1, b2, b3, b4, b5, b6, b7; reflexivity.
Qed.

Lemma lower_idem (s : string) : PyStr.lower (PyStr.lower s) = PyStr.lower s.
Proof.
  induction s as [| c s IH]; simpl; [reflexivity |].
  now rewrite lower_char_idem, IH.
Qed.

Lemma lstrip_lower (s : string) :
  PyStr.lstrip (PyStr.lower s) = PyStr.lower (PyStr.lstrip s).
Proof.
  induction s as [| c s IH]; simpl; [reflexivity |].
  rewrite is_space_lower_char. now destruct (PyStr.is_space c).
Qed.

Lemma rstrip_lower (s : string) :
  PyStr.rstrip (PyStr.lower s) = PyStr.lower (PyStr.rstrip s).
Proof.
  induction s as [| c s IH]; simpl; [reflexivity |].
  rewrite IH, is_space_lower_char.
  destruct (PyStr.rstrip s); simpl; [now destruct (PyStr.is_space c) |].
  reflexivity.
Qed.

Lemma strip_lower (s : string) :
  PyStr.strip (PyStr.lower s) = PyStr.lower (PyStr.strip s).
Proof. unfold PyStr.strip. now rewrite lstrip_lower, rstrip_lower. Qed.

Lemma rstrip_idem (s : string) : PyStr.rstrip (PyStr.rstrip s) = PyStr.rstrip s.
Proof.
  induction s as [| c s IH]; simpl; [reflexivity |].
  destruct (PyStr.rstrip s) as [| d r] eqn:E.
  - destruct (PyStr.is_space c) eqn:Ec; simpl; [reflexivity |].
    now rewrite Ec.
  - simpl. simpl in IH. now rewrite IH.
Qed.

Lemma lstrip_first (s : string) : not_space (first_char (PyStr.lstrip s)).
Proof.
  induction s as [| c s IH]; simpl; [exact I |].
  destruct (PyStr.is_space c) eqn:Ec; [exact IH | exact Ec].
Qed.

Lemma rstrip_first (s : string) :
  not_space (first_char s) ->
  first_char (PyStr.rstrip s) = first_char s.
Proof.
  destruct s as [| c s]; simpl; [reflexivity |]. intros Hc.
  destruct (PyStr.rstrip s); [now rewrite Hc | reflexivity].
Qed.

Lemma lstrip_id (s : string) :
  not_space (first_char s) -> PyStr.lstrip s = s.
Proof.
  destruct s as [| c s]; simpl; [reflexivity |]. now intros ->.
Qed.

Lemma rstrip_last (s : string) : not_space (last_char (PyStr.rstrip s)).
Proof.
  induction s as [| c s IH]; simpl; [exact I |].
  destruct (PyStr.rstrip s) as [| d r] eqn:E.
  - destruct (PyStr.is_space c) eqn:Ec; simpl; [exact I | exact Ec].
  - exact IH.
Qed.

Lemma strip_first (s : string) : not_space (first_char (PyStr.strip s)).
Proof.
  unfold PyStr.strip. rewrite rstrip_first; apply lstrip_first.
Qed.

Lemma strip_idem (s : string) : PyStr.strip (PyStr.strip s) = PyStr.strip s.
Proof.
  unfold PyStr.strip at 1. rewrite lstrip_id by apply strip_first.
  unfold PyStr.strip. apply rstrip_idem.
Qed.

Lemma strip_last (s : string) : not_space (last_char (PyStr.strip s)).
Proof. unfold PyStr.strip. apply rstrip_last. Qed.

Lemma append_assoc (a b c : string) : ((a ++ b) ++ c = a ++ (b ++ c))%string.
Proof.
  induction a as [| x a IH]; simpl; [reflexivity | now rewrite IH].
Qed.

Lemma append_length (a b : string) :
  String.length (a ++ b) = String.length a + String.length b.
Proof.
  induction a as [| x a IH]; simpl; [reflexivity | now rewrite IH].
Qed.

Lemma rstrip_app (s t : string) :
  PyStr.rstrip t <> "" ->
  PyStr.rstrip (s ++ t) = (s ++ PyStr.rstrip t)%string.
Proof.
  intros Ht. induction s as [| c s IH]; simpl; [reflexivity |].
  rewrite IH. destruct (s ++ PyStr.rstrip t)%string eqn:E; [| reflexivity].
  destruct s; simpl in E; [contradiction | discriminate].
Qed.

Lemma strip_widget_template (css js : string) :
  PyStr.strip (widget_template css js) = widget_page css js.
Proof.
  pose (S := ("<div id=" ++ DQ ++ "root" ++ DQ ++ "></div>" ++ LF
                ++ "<style>" ++ css ++ "</style>" ++ LF
                ++ "<script type=" ++ DQ ++ "module" ++ DQ ++ ">" ++ LF
                ++ js ++ LF)%string).
  assert (Ht : widget_template css js = (LF ++ S ++ "</script>" ++ LF)%string).
  { unfold widget_template, S. rewrite !append_assoc. reflexivity. }
  assert (Hp : widget_page css js = (S ++ "</script>")%string).
  { unfold widget_page, S. rewrite !append_assoc. reflexivity. }
  rewrite Ht, Hp. unfold PyStr.strip.
  change (PyStr.lstrip (LF ++ S ++ "</script>" ++ LF))
    with (PyStr.lstrip (S ++ "</script>" ++ LF)).
  rewrite lstrip_id by reflexivity.
  rewrite rstrip_app by discriminate. reflexivity.
Qed.


(** ** The order on floats and on keys *)

Lemma Qle_bool_total (x y : Q) : Qle_bool x y = false -> Qle_bool y x = true.
Proof.
  intros H. apply Qle_bool_iff.
  destruct (Qlt_le_dec y x) as [Hlt | Hle]; [now apply Qlt_le_weak |].
  apply Qle_bool_iff in Hle. congruence.
Qed.

Lemma Qle_bool_trans (x y z : Q) :
  Qle_bool x y = true -> Qle_bool y z = true -> Qle_bool x z = true.
Proof.
  rewrite !Qle_bool_iff. apply Qle_trans.
Qed.

Lemma float_leb_trans (a b c : pyfloat) :
  float_leb a b = true -> float_leb b c = true -> float_leb a c = true.
Proof.
  destruct a as [x | [|] |], b as [y | [|] |], c as [z | [|] |]; simpl;
    try discriminate; try reflexivity.
  apply Qle_bool_trans.
Qed.

Lemma float_leb_total (a b : pyfloat) :
  is_nan a = false -> is_nan b = false ->
  float_leb a b = false -> float_leb b a = true.
Proof.
  destruct a as [x | [|] |], b as [y | [|] |]; simpl;
    try discriminate; try reflexivity.
  intros _ _. apply Qle_bool_total.
Qed.

Lemma float_ltb_asym (a b : pyfloat) :
  float_ltb a b = true -> float_ltb b a = false.
Proof.
  unfold float_ltb. intros H. apply andb_true_iff in H as (_ & H).
  apply negb_true_iff in H. now rewrite H.
Qed.

Lemma py_ltb_scalars (a b : value) :
  py_ltb a b
  = match num_of a, num_of b with
    | Some x, Some y => float_ltb x y
    | _, _ =>
        match a, b with
        | VStr s, VStr t => String.ltb s t
        | VList _, VList _ => py_ltb a b
        | _, _ => false
        end
    end.
Proof.
  unfold py_ltb. destruct a, b; simpl; try reflexivity;
    match goal with |- context [if ?c then _ else _] => destruct c end;
    reflexivity.
Qed.

Lemma py_ltb_asym (a b : value) :
  scalar a = true -> py_ltb a b = true -> py_ltb b a = false.
Proof.
  unfold scalar, is_number. rewrite (py_ltb_scalars a b), (py_ltb_scalars b a).
  destruct (num_of a) as [x |] eqn:Ea.
  - intros _. destruct (num_of b) as [y |] eqn:Eb.
    + apply float_ltb_asym.
    + destruct a, b; try discriminate.
  - simpl. destruct a; try discriminate. intros _.
    destruct b; simpl; try discriminate.
    apply ltb_asym.
Qed.

(** Between keys that Python orders, "not less" is "greater or equal". *)
Lemma not_ltb_py_le (a b : value) :
  (is_real a = true /\ is_real b = true)
  \/ (is_str a = true /\ is_str b = true) ->
  py_ltb b a = false -> py_le a b.
Proof.
  unfold is_real, py_le. rewrite (py_ltb_scalars b a).
  intros [(Ha & Hb) | (Ha & Hb)].
  - destruct (num_of a) as [x |]; [| discriminate].
    destruct (num_of b) as [y |]; [| discriminate].
    apply negb_true_iff in Ha, Hb. unfold float_ltb. intros H.
    apply andb_false_iff in H as [H | H].
    + now apply float_leb_total.
    + now apply negb_false_iff in H.
  - destruct a; try discriminate. destruct b; try discriminate.
    simpl. apply not_ltb_leb.
Qed.

Lemma float_eqb_not_ltb (k x y : pyfloat) :
  float_eqb k x = true -> float_eqb k y = true -> float_ltb x y = false.
Proof.
  unfold float_eqb, float_ltb. intros Hx Hy.
  apply andb_true_iff in Hx as (Hkx & Hxk).
  apply andb_true_iff in Hy as (Hky & Hyk).
  rewrite (float_leb_trans y k x Hyk Hkx). apply andb_false_r.
Qed.

Lemma same_key_not_ltb (k a b : value) :
  same_key k a = true -> same_key k b = true -> py_ltb a b = false.
Proof.
  unfold same_key. rewrite (py_ltb_scalars a b).
  destruct (num_of k) as [z |] eqn:Ek.
  - destruct (num_of a) as [x |]; [| destruct k, a; discriminate].
    destruct (num_of b) as [y |]; [| destruct k, b; discriminate].
    apply float_eqb_not_ltb.
  - destruct k; try discriminate;
      destruct a; try discriminate; destruct b; try discriminate.
    simpl. intros Hx Hy.
    apply String.eqb_eq in Hx, Hy. subst. now rewrite ltb_irrefl.
Qed.

Lemma leb_trans (s t u : string) :
  String.leb s t = true -> String.leb t u = true -> String.leb s u = true.
Proof.
  unfold String.leb. intros H1 H2.
  pose proof (compare_not_gt_trans s t u) as H.
  destruct (String.compare s t), (String.compare t u),
    (String.compare s u); try reflexivity; try discriminate;
    exfalso; apply H; congruence.
Qed.

Lemma py_le_trans (a b c : value) : py_le a b -> py_le b c -> py_le a c.
Proof.
  unfold py_le.
  destruct (num_of a) as [x |] eqn:Ea, (num_of b) as [y |] eqn:Eb,
    (num_of c) as [z |] eqn:Ec;
    try (destruct a, b; simpl in *; try discriminate; tauto);
    try (destruct b, c; simpl in *; try discriminate; tauto).
  - apply float_leb_trans.
  - destruct a, b, c; try tauto. apply leb_trans.
Qed.

(** ** The order on paths *)

Lemma path_compare_antisym (p q : path) :
  path_compare p q = CompOpp (path_compare q p).
Proof.
  revert q; induction p as [| x p IH]; intros [| y q]; simpl; try reflexivity.
  rewrite (String.compare_antisym x y).
  destruct (String.compare y x); simpl; [apply IH | reflexivity ..].
Qed.

Lemma path_compare_eq (p q : path) : path_compare p q = Eq -> p = q.
Proof.
  revert q; induction p as [| x p IH]; intros [| y q]; simpl;
    try discriminate; [reflexivity |].
  destruct (String.compare x y) eqn:E; try discriminate.
  intros H. apply String.compare_eq_iff in E. subst. f_equal. now apply IH.
Qed.

Lemma compare_lt_trans (s t u : string) :
  String.compare s t = Lt -> String.compare t u = Lt ->
  String.compare s u = Lt.
Proof.
  intros H1 H2.
  destruct (String.compare s u) eqn:E; [| reflexivity |].
  - apply String.compare_eq_iff in E. subst u.
    rewrite (String.compare_antisym t s), H1 in H2. discriminate.
  - exfalso. apply (compare_not_gt_trans s t u); congruence.
Qed.

Lemma path_compare_not_gt_trans (p q r : path) :
  path_compare p q <> Gt -> path_compare q r <> Gt ->
  path_compare p r <> Gt.
Proof.
  revert q r; induction p as [| x p IH]; intros [| y q] [| z r]; simpl;
    try congruence.
  destruct (String.compare x y) eqn:Exy; try congruence;
    destruct (String.compare y z) eqn:Eyz; try congruence; intros H1 H2.
  - apply String.compare_eq_iff in Exy, Eyz. subst.
    rewrite compare_refl. now apply (IH q).
  - apply String.compare_eq_iff in Exy. subst. now rewrite Eyz.
  - apply String.compare_eq_iff in Eyz. subst. now rewrite Exy.
  - now rewrite (compare_lt_trans x y z Exy Eyz).
Qed.

Lemma path_ltb_asym (p q : path) :
  path_ltb p q = true -> path_ltb q p = false.
Proof.
  unfold path_ltb. rewrite (path_compare_antisym p q).
  destruct (path_compare q p); simpl; congruence.
Qed.

Lemma not_path_ltb_leb (p q : path) :
  path_ltb q p = false -> path_leb p q = true.
Proof.
  unfold path_ltb, path_leb. rewrite (path_compare_antisym q p).
  destruct (path_compare p q); simpl; congruence.
Qed.

Lemma not_path_ltb_trans (p q r : path) :
  path_ltb q p = false -> path_ltb r q = false -> path_ltb r p = false.
Proof.
  unfold path_ltb.
  rewrite (path_compare_antisym q p), (path_compare_antisym r q),
    (path_compare_antisym r p).
  pose proof (path_compare_not_gt_trans p q r) as H.
  destruct (path_compare p q), (path_compare q r),
    (path_compare p r); simpl in *; intros; try reflexivity;
    try discriminate; exfalso; apply H; congruence.
Qed.

Lemma path_leb_refl (p : path) : path_leb p p = true.
Proof.
  unfold path_leb. pose proof (path_compare_antisym p p) as H.
  destruct (path_compare p p); simpl in H; congruence.
Qed.

Lemma path_leb_antisym (p q : path) :
  path_leb p q = true -> path_leb q p = true -> p = q.
Proof.
  unfold path_leb. rewrite (path_compare_antisym q p).
  destruct (path_compare p q) eqn:E; simpl; try discriminate.
  intros _ _. now apply path_compare_eq.
Qed.

(** ** The reference sort meets the contract *)

Lemma forallb_impl {A : Type} (p q : A -> bool) (l : list A) :
  (forall x, p x = true -> q x = true) ->
  forallb p l = true -> forallb q l = true.
Proof.
  intros H. rewrite !forallb_forall. auto.
Qed.

Lemma is_real_number (v : value) : is_real v = true -> is_number v = true.
Proof.
  unfold is_real, is_number. now destruct (num_of v).
Qed.

Lemma ordered_safe (ks : list value) :
  ordered_keys ks = true -> safe_keys ks = true.
Proof.
  unfold ordered_keys, safe_keys. intros H.
  apply orb_true_iff in H as [H | H]; apply orb_true_iff; [left | now right].
  revert H. apply forallb_impl, is_real_number.
Qed.

Lemma number_comparable (a b : value) :
  is_number a = true -> is_number b = true -> comparable a b = true.
Proof.
  unfold is_number, comparable.
  destruct a, b; simpl; try discriminate; reflexivity.
Qed.

Lemma str_comparable (a b : value) :
  is_str a = true -> is_str b = true -> comparable a b = true.
Proof. destruct a, b; try discriminate. reflexivity. Qed.

Lemma safe_all_comparable (ks : list value) :
  safe_keys ks = true -> all_comparable ks = true.
Proof.
  unfold safe_keys, all_comparable. intros H.
  apply forallb_forall. intros a Ha. apply forallb_forall. intros b Hb.
  apply orb_true_iff in H as [H | H]; rewrite forallb_forall in H.
  - apply number_comparable; auto.
  - apply str_comparable; auto.
Qed.

Theorem reference_sort_contract : sort_contract reference_sort.
Proof.
  constructor; unfold reference_sort.
  - intros reverse l H. apply Nat.leb_le in H. now rewrite H.
  - intros reverse l H.
    destruct (Nat.leb_spec (List.length l) 1) as [Hle | Hgt].
    + now rewrite stable_sort_short.
    + now rewrite (safe_all_comparable _ (ordered_safe _ H)).
  - intros reverse l H.
    destruct (List.length l <=? 1)%nat; [eauto |].
    rewrite (safe_all_comparable _ H). eauto.
  - intros reverse l l' H.
    destruct (List.length l <=? 1)%nat.
    + inversion H. reflexivity.
    + destruct (all_comparable (map fst l)); [| discriminate].
      inversion H. apply stable_sort_perm.
  - intros reverse l e H.
    destruct (List.length l <=? 1)%nat; [discriminate |].
    destruct (all_comparable (map fst l)); [discriminate | congruence].
Qed.

(** ** The tests of the query against the readings of a record *)

Lemma subscript_field (s : value) (k : string) (v : value) :
  subscript s k = Ok v <-> field k s = Some v.
Proof.
  unfold subscript, field. destruct s; try (split; discriminate).
  destruct (dict_lookup k items); split; congruence.
Qed.

Lemma city_matches_dict (city : string) (s : value) :
  city_matches city s = true -> is_dict s = true.
Proof.
  unfold city_matches, field. now destruct s.
Qed.

Lemma city_test_reads (city : string) (s : value) (b : bool) :
  city_test (PyStr.lower (PyStr.strip city)) s = Ok b ->
  city_matches city s = b.
Proof.
  unfold city_test, city_matches. intros H.
  inv_bind H. inv_bind H. apply subscript_field in Ha. rewrite Ha.
  destruct a; try discriminate. simpl in Ha0. congruence.
Qed.

Lemma city_test_total (city : string) (s : value) :
  has_str_city s = true ->
  city_test (PyStr.lower (PyStr.strip city)) s = Ok (city_matches city s).
Proof.
  unfold has_str_city, city_test, city_matches. intros H.
  destruct (field "city" s) as [v |] eqn:E; [| discriminate].
  apply subscript_field in E. rewrite E. simpl.
  destruct v; try discriminate. reflexivity.
Qed.

Lemma combine_decorate {A B : Type} (f : A -> B) (l : list A) :
  combine (map f l) l = map (fun x => (f x, x)) l.
Proof.
  induction l as [| x l IH]; simpl; [reflexivity | now rewrite IH].
Qed.

Lemma undecorate {A B : Type} (f : A -> B) (l : list A) :
  map snd (map (fun x => (f x, x)) l) = l.
Proof.
  rewrite map_map. simpl. apply map_id.
Qed.

Lemma scan_find (i : string) (l : list value) (o : option value) :
  scan i l = Ok o -> o = find (has_id i) l.
Proof.
  induction l as [| s l IH]; simpl; intros H; [congruence |].
  inv_bind H. apply subscript_field in Ha.
  unfold has_id at 1. rewrite Ha.
  destruct (eq_str a i); [congruence | now apply IH].
Qed.

Lemma scan_total (i : string) (l : list value) :
  Forall (fun s => has_field "id" s = true) l ->
  scan i l = Ok (find (has_id i) l).
Proof.
  induction 1 as [| s l Hs _ IH]; simpl; [reflexivity |].
  unfold has_field in Hs. unfold has_id at 1.
  destruct (field "id" s) as [v |] eqn:E; [| discriminate].
  apply subscript_field in E. rewrite E. simpl.
  destruct (eq_str v i); [reflexivity | exact IH].
Qed.

Lemma scan_skip (i : string) (l1 t : list value) :
  Forall (fun x => has_field "id" x = true /\ has_id i x = false) l1 ->
  scan i (l1 ++ t) = scan i t.
Proof.
  induction 1 as [| x l1 (Hx1 & Hx2) _ IH]; simpl; [reflexivity |].
  unfold has_field in Hx1. unfold has_id in Hx2.
  destruct (field "id" x) as [v |] eqn:E; [| discriminate].
  apply subscript_field in E. rewrite E. simpl. now rewrite Hx2.
Qed.


Lemma city_test_defined (cn : string) (s : value) :
  has_str_city s = true -> exists b, city_test cn s = Ok b.
Proof.
  unfold has_str_city, city_test. intros H.
  destruct (field "city" s) as [v |] eqn:E; [| discriminate].
  apply subscript_field in E. rewrite E. simpl.
  destruct v; try discriminate. simpl. eauto.
Qed.

Lemma py_get_dict (s : value) (k : string) :
  is_dict s = true -> py_get s k (VInt 0) = Ok (sort_value k s).
Proof.
  unfold py_get, sort_value, field. destruct s; try discriminate.
  intros _. now destruct (dict_lookup k items).
Qed.

Lemma py_get_ok (s : value) (k : string) (v : value) :
  py_get s k (VInt 0) = Ok v -> is_dict s = true /\ v = sort_value k s.
Proof.
  destruct s; try discriminate. intros H.
  rewrite py_get_dict in H by reflexivity.
  split; [reflexivity | congruence].
Qed.

Section TestFacts.
Variable float_of_str : string -> option pyfloat.

Lemma rating_test_reads (r : pyfloat) (s : value) (b : bool) :
  rating_test float_of_str r s = Ok b ->
  rating_ok float_of_str (Some r) s = b.
Proof.
  unfold rating_test, rating_ok, rating_of. intros H.
  inv_bind H. inv_bind H. apply py_get_ok in Ha as (_ & ->).
  rewrite Ha0. congruence.
Qed.

Lemma rating_test_total (r : pyfloat) (s : value) :
  is_dict s = true -> is_float_like (sort_value "rating" s) = true ->
  rating_test float_of_str r s
  = Ok (rating_ok float_of_str (Some r) s).
Proof.
  unfold rating_test, rating_ok, rating_of. intros Hd Hn.
  rewrite py_get_dict by assumption. simpl.
  destruct (sort_value "rating" s); try discriminate; simpl in *.
  - destruct (float_of_int z); [reflexivity | discriminate].
  - reflexivity.
Qed.

End TestFacts.

(** ** [list.sort] on records *)

Lemma keys_of_perm (sort : sort_key) (l l' : list value) :
  Permutation l l' -> Permutation (keys_of sort l) (keys_of sort l').
Proof. apply Permutation_map. Qed.

Lemma forallb_perm {A : Type} (p : A -> bool) (l l' : list A) :
  Permutation l l' -> forallb p l = forallb p l'.
Proof.
  induction 1 as [| x l l' _ IH | x y l | l l' l'' _ IH1 _ IH2]; simpl.
  - reflexivity.
  - now rewrite IH.
  - now rewrite !andb_assoc, (andb_comm (p y) (p x)).
  - congruence.
Qed.

Lemma ordered_keys_perm (ks ks' : list value) :
  Permutation ks ks' -> ordered_keys ks = ordered_keys ks'.
Proof.
  intros H. unfold ordered_keys.
  now rewrite (forallb_perm is_real _ _ H), (forallb_perm is_str _ _ H).
Qed.

Section SortFacts.
Variable srt : sorter.
Hypothesis srt_ok : sort_contract srt.

Lemma list_sort_records (sort : sort_key) (l l' : list value) :
  Forall (fun s => is_dict s = true) l ->
  list_sort srt (fun s => py_get s (sort_field sort) (VInt 0))
    (sort_eq_rating sort) l = Ok l' ->
  Permutation l' l
  /\ (ordered_keys (keys_of sort l) = true -> l' = ordered sort l).
Proof.
  intros Hd. unfold list_sort.
  rewrite (mapM_map _ (sort_value (sort_field sort))).
  2:{ eapply Forall_impl; [| exact Hd]. intros s Hs. now apply py_get_dict. }
  simpl. rewrite combine_decorate.
  destruct (srt (sort_eq_rating sort) _) as [pairs | e] eqn:E; simpl;
    [| discriminate].
  intros H. inversion H; subst l'. clear H. split.
  - apply (sort_perm srt srt_ok) in E.
    apply (Permutation_map snd) in E. now rewrite undecorate in E.
  - intros Hk. rewrite (sort_ordered srt srt_ok) in E.
    + inversion E; subst pairs.
      rewrite (stable_sort_map _ (before_value sort)) by reflexivity.
      apply undecorate.
    + rewrite map_map. exact Hk.
Qed.

Lemma list_sort_returns (sort : sort_key) (l : list value) :
  Forall (fun s => is_dict s = true) l ->
  safe_keys (keys_of sort l) = true \/ (List.length l <= 1)%nat ->
  exists l',
    list_sort srt (fun s => py_get s (sort_field sort) (VInt 0))
      (sort_eq_rating sort) l = Ok l'.
Proof.
  intros Hd Hk. unfold list_sort.
  rewrite (mapM_map _ (sort_value (sort_field sort))).
  2:{ eapply Forall_impl; [| exact Hd]. intros s Hs. now apply py_get_dict. }
  simpl. rewrite combine_decorate.
  destruct Hk as [Hk | Hk].
  - destruct (sort_returns srt srt_ok (sort_eq_rating sort)
                (map (fun x => (sort_value (sort_field sort) x, x)) l))
      as (pairs & ->); [now rewrite map_map |].
    simpl. eauto.
  - rewrite (sort_short srt srt_ok) by now rewrite length_map.
    simpl. eauto.
Qed.

Lemma list_sort_nil (keyf : value -> result value) (reverse : bool) :
  list_sort srt keyf reverse [] = Ok [].
Proof.
  unfold list_sort. simpl.
  now rewrite (sort_short srt srt_ok) by (simpl; lia).
Qed.

End SortFacts.

(** ** What a successful query returns *)

Section QueryFacts.
Variable srt : sorter.
Variable float_of_str : string -> option pyfloat.

Lemma filtered_records (c : string) (min_rating : option pyfloat)
  (items l0 l1 : list value) :
  filterM (city_test (PyStr.lower (PyStr.strip c))) items = Ok l0 ->
  match min_rating with
  | Some r => filterM (rating_test float_of_str r) l0
  | None => Ok l0
  end = Ok l1 ->
  l1 = filter (keeps float_of_str c min_rating) items.
Proof.
  intros H0 H1.
  apply (filterM_filter _ (city_matches c)) in H0;
    [| intros; now apply city_test_reads].
  unfold keeps. destruct min_rating as [r |].
  - apply (filterM_filter _ (rating_ok float_of_str (Some r))) in H1;
      [| intros; now apply rating_test_reads].
    subst. apply filter_and.
  - inversion H1; subst. apply filter_ext.
    intros s. simpl. now rewrite andb_true_r.
Qed.

Lemma keeps_dict (c : string) (min_rating : option pyfloat)
  (l : list value) :
  Forall (fun s => is_dict s = true) (filter (keeps float_of_str c min_rating) l).
Proof.
  apply Forall_forall. intros s Hs. apply filter_In in Hs as (_ & Hs).
  apply andb_true_iff in Hs as (Hs & _).
  now apply city_matches_dict in Hs.
Qed.

Lemma keeps_no_rating (c : string) (D : list value) :
  filter (keeps float_of_str c None) D = filter (city_matches c) D.
Proof.
  apply filter_ext. intros s. unfold keeps. simpl. apply andb_true_r.
Qed.

Theorem explore_stays_ok (c : string) (min_rating : option pyfloat)
  (sort : sort_key) (selected_id : option string) (w : world)
  (r : ToolResult) :
  explore_stays srt float_of_str c min_rating sort selected_id w = Ok r ->
  exists stays items,
    load_stays w = Ok stays
    /\ py_iter stays = Ok items
    /\ list_sort srt (fun s => py_get s (sort_field sort) (VInt 0))
         (sort_eq_rating sort) (filter (keeps float_of_str c min_rating) items)
       = Ok (results r)
    /\ selected r = selection selected_id (results r)
    /\ city r = PyStr.strip c
    /\ text r = ("Found " ++ PyStr.of_nat (List.length (results r))
                   ++ " stays in " ++ PyStr.strip c ++ ".")%string
    /\ applied_min_rating r = min_rating
    /\ applied_sort r = sort.
Proof.
  unfold explore_stays. intros H.
  apply bind_ok in H as (stays & Hload & H).
  apply bind_ok in H as (items & Hiter & H).
  apply bind_ok in H as (l0 & Hcity & H).
  apply bind_ok in H as (l1 & Hrating & H).
  apply bind_ok in H as (l2 & Hsort & H).
  apply bind_ok in H as (sel & Hsel & H).
  inversion H; subst r; clear H. simpl.
  pose proof (filtered_records _ _ _ _ _ Hcity Hrating) as ->.
  exists stays, items. repeat split; try assumption.
  unfold selection. destruct selected_id as [i |]; [| congruence].
  destruct (truthy i); [| congruence].
  now apply scan_find.
Qed.

(** The query with a selection is the query without one, followed by the
    scan of its results. *)
Lemma explore_stays_select (c : string) (min_rating : option pyfloat)
  (sort : sort_key) (i : string) (w : world) :
  explore_stays srt float_of_str c min_rating sort (Some i) w
  = (r0 <- explore_stays srt float_of_str c min_rating sort None w ;;
     if truthy i
     then sel <- scan i (results r0) ;; Ok (with_selected r0 sel)
     else Ok r0).
Proof.
  unfold explore_stays.
  destruct (load_stays w) as [stays | e0]; simpl; [| reflexivity].
  destruct (py_iter stays) as [items | e1]; simpl; [| reflexivity].
  destruct (filterM _ items) as [l0 | e2]; simpl; [| reflexivity].
  destruct (match min_rating with
            | Some r => filterM (rating_test float_of_str r) l0
            | None => Ok l0
            end) as [l1 | e3]; simpl; [| reflexivity].
  destruct (list_sort _ _ _ l1) as [l2 | e4]; simpl; [| reflexivity].
  destruct (truthy i); simpl; [| reflexivity].
  destruct (scan i l2); reflexivity.
Qed.

(** The stages of the query on a dataset whose records all carry a string
    city. *)
Lemma explore_stays_stages (c : string) (min_rating : option pyfloat)
  (sort : sort_key) (selected_id : option string) (w : world)
  (D : list value) :
  data_file w = Json (VList D) ->
  Forall (fun s => has_str_city s = true) D ->
  explore_stays srt float_of_str c min_rating sort selected_id w
  = (filtered <- match min_rating with
                 | Some r => filterM (rating_test float_of_str r)
                               (filter (city_matches c) D)
                 | None => Ok (filter (city_matches c) D)
                 end ;;
     filtered <- list_sort srt
                   (fun s => py_get s (sort_field sort) (VInt 0))
                   (sort_eq_rating sort) filtered ;;
     selected <- match selected_id with
                 | Some i => if truthy i then scan i filtered else Ok None
                 | None => Ok None
                 end ;;
     Ok {| text := "Found " ++ PyStr.of_nat (List.length filtered)
                     ++ " stays in " ++ PyStr.strip c ++ ".";
           city := PyStr.strip c;
           results := filtered;
           selected := selected;
           applied_min_rating := min_rating;
           applied_sort := sort |}).
Proof.
  intros Hw Hc. unfold explore_stays, load_stays. rewrite Hw. simpl.
  rewrite (filterM_total _ (city_matches c)); [reflexivity |].
  eapply Forall_impl; [| exact Hc].
  intros s Hs. now apply city_test_total.
Qed.

Lemma same_normal_form (c1 c2 : string) (min_rating : option pyfloat)
  (sort : sort_key) (selected_id : option string) (w : world) :
  PyStr.lower (PyStr.strip c1) = PyStr.lower (PyStr.strip c2) ->
  (forall r1,
     explore_stays srt float_of_str c1 min_rating sort selected_id w = Ok r1 ->
     exists r2,
       explore_stays srt float_of_str c2 min_rating sort selected_id w = Ok r2
       /\ results r2 = results r1 /\ selected r2 = selected r1)
  /\ (forall e,
        explore_stays srt float_of_str c1 min_rating sort selected_id w
        = Err e ->
        explore_stays srt float_of_str c2 min_rating sort selected_id w
        = Err e).
Proof.
  intros Hn. unfold explore_stays. rewrite Hn.
  destruct (load_stays w) as [stays | e0]; simpl; [| split; [discriminate | auto]].
  destruct (py_iter stays) as [items | e1]; simpl;
    [| split; [discriminate | auto]].
  destruct (filterM _ items) as [l0 | e2]; simpl;
    [| split; [discriminate | auto]].
  destruct (match min_rating with
            | Some r => filterM (rating_test float_of_str r) l0
            | None => Ok l0
            end) as [l1 | e3]; simpl; [| split; [discriminate | auto]].
  destruct (list_sort _ _ _ l1) as [l2 | e4]; simpl;
    [| split; [discriminate | auto]].
  destruct (match selected_id with
            | Some i => if truthy i then scan i l2 else Ok None
            | None => Ok None
            end) as [sel | e5]; simpl; [| split; [discriminate | auto]].
  split; [| discriminate].
  intros r1 H. inversion H; subst r1. simpl. eauto.
Qed.

Hypothesis srt_ok : sort_contract srt.

Lemma results_on (c : string) (min_rating : option pyfloat)
  (sort : sort_key) (selected_id : option string) (w : world)
  (D : list value) (r : ToolResult) :
  data_file w = Json (VList D) ->
  explore_stays srt float_of_str c min_rating sort selected_id w = Ok r ->
  list_sort srt (fun s => py_get s (sort_field sort) (VInt 0))
    (sort_eq_rating sort) (filter (keeps float_of_str c min_rating) D)
  = Ok (results r).
Proof.
  intros Hw H.
  apply explore_stays_ok in H
    as (stays & items & Hload & Hiter & Hres & _).
  unfold load_stays in Hload. rewrite Hw in Hload.
  inversion Hload; subst stays. simpl in Hiter.
  inversion Hiter; subst items. exact Hres.
Qed.

Lemma results_perm (c : string) (min_rating : option pyfloat)
  (sort : sort_key) (selected_id : option string) (w : world)
  (D : list value) (r : ToolResult) :
  data_file w = Json (VList D) ->
  explore_stays srt float_of_str c min_rating sort selected_id w = Ok r ->
  Permutation (results r) (filter (keeps float_of_str c min_rating) D).
Proof.
  intros Hw H. apply (results_on _ _ _ _ _ _ _ Hw) in H.
  apply (list_sort_records srt srt_ok) in H as (H & _); [exact H |].
  apply keeps_dict.
Qed.

(** When Python orders the keys of the results, the results are the
    stable arrangement of the kept records. *)
Lemma results_ordered (c : string) (min_rating : option pyfloat)
  (sort : sort_key) (selected_id : option string) (w : world)
  (D : list value) (r : ToolResult) :
  data_file w = Json (VList D) ->
  explore_stays srt float_of_str c min_rating sort selected_id w = Ok r ->
  ordered_keys (keys_of sort (results r)) = true ->
  results r = ordered sort (filter (keeps float_of_str c min_rating) D).
Proof.
  intros Hw H Hk. apply (results_on _ _ _ _ _ _ _ Hw) in H.
  apply (list_sort_records srt srt_ok) in H as (Hp & H); [| apply keeps_dict].
  apply H. rewrite <- Hk. symmetry.
  apply ordered_keys_perm, keys_of_perm, Hp.
Qed.

Lemma results_items_perm (c : string) (min_rating : option pyfloat)
  (sort : sort_key) (selected_id : option string) (w : world)
  (r : ToolResult) :
  explore_stays srt float_of_str c min_rating sort selected_id w = Ok r ->
  exists items,
    (exists stays, load_stays w = Ok stays /\ py_iter stays = Ok items)
    /\ Permutation (results r)
         (filter (keeps float_of_str c min_rating) items).
Proof.
  intros H. apply explore_stays_ok in H
    as (stays & items & Hload & Hiter & Hres & _).
  exists items. split; [eauto |].
  apply (list_sort_records srt srt_ok) in Hres as (H & _); [exact H |].
  apply keeps_dict.
Qed.

(** On records of the shape the data model describes the query returns. *)
Theorem explore_stays_returns (c : string) (min_rating : option pyfloat)
  (sort : sort_key) (selected_id : option string) (w : world)
  (D : list value) :
  data_file w = Json (VList D) ->
  Forall (fun s => well_formed s = true) D ->
  exists r, explore_stays srt float_of_str c min_rating sort selected_id w
            = Ok r.
Proof.
  intros Hw Hwf.
  assert (Hparts : Forall (fun s =>
            is_dict s = true /\ has_str_city s = true
            /\ has_field "id" s = true
            /\ is_float_like (sort_value "rating" s) = true
            /\ is_number (sort_value "price_per_night" s) = true) D).
  { eapply Forall_impl; [| exact Hwf]. intros s Hs.
    unfold well_formed in Hs.
    repeat (apply andb_true_iff in Hs as (Hs & ?)).
    repeat split; auto.
    unfold has_field. now destruct (field "id" s). }
  rewrite (explore_stays_stages _ _ _ _ _ D Hw)
    by (eapply Forall_impl; [| exact Hparts]; intros s Hs; apply Hs).
  assert (Hstage : match min_rating with
                   | Some r => filterM (rating_test float_of_str r)
                                 (filter (city_matches c) D)
                   | None => Ok (filter (city_matches c) D)
                   end = Ok (filter (keeps float_of_str c min_rating) D)).
  { destruct min_rating as [r |].
    - rewrite (filterM_total _ (rating_ok float_of_str (Some r))).
      + unfold keeps. now rewrite filter_and.
      + apply Forall_filter. eapply Forall_impl; [| exact Hparts].
        intros s Hs. apply rating_test_total; apply Hs.
    - f_equal. symmetry. apply keeps_no_rating. }
  rewrite Hstage. simpl.
  destruct (list_sort_returns srt srt_ok sort
              (filter (keeps float_of_str c min_rating) D))
    as (l2 & Hl2).
  - apply keeps_dict.
  - left. unfold safe_keys, keys_of. apply orb_true_iff. left.
    apply forallb_forall. intros k Hk.
    apply in_map_iff in Hk as (s & <- & Hs).
    apply filter_In in Hs as (Hs & _).
    rewrite Forall_forall in Hparts.
    destruct (Hparts s Hs) as (_ & _ & _ & Hr & Hp).
    destruct sort; [| exact Hp].
    change (sort_field rating) with "rating".
    unfold is_float_like in Hr. unfold is_number.
    destruct (sort_value "rating" s); try discriminate; reflexivity.
  - pose proof Hl2 as Hperm.
    apply (list_sort_records srt srt_ok) in Hperm as (Hperm & _);
      [| apply keeps_dict].
    rewrite Hl2. simpl.
    assert (Hid : Forall (fun s => has_field "id" s = true) l2).
    { apply Forall_forall. intros s Hs.
      apply (Permutation_in _ Hperm), filter_In in Hs as (Hs & _).
      rewrite Forall_forall in Hparts. now apply Hparts. }
    destruct selected_id as [i |]; [destruct (truthy i) |]; simpl;
      try rewrite (scan_total _ _ Hid); simpl; eauto.
Qed.
End QueryFacts.

(** ** Order of the answer *)

Lemma before_value_asym (sort : sort_key) (l : list value) (x y : value) :
  ordered_keys (keys_of sort l) = true -> In x l -> In y l ->
  before_value sort x y = true -> before_value sort y x = false.
Proof.
  intros Hk Hx Hy.
  assert (Hs : forall z, In z l ->
                 scalar (sort_value (sort_field sort) z) = true).
  { intros z Hz. unfold ordered_keys, keys_of in Hk. unfold scalar.
    apply orb_true_iff in Hk as [Hk | Hk]; rewrite forallb_forall in Hk;
      specialize (Hk _ (in_map _ _ _ Hz)); apply orb_true_iff;
      [left; now apply is_real_number | now right]. }
  unfold before_value. destruct (sort_eq_rating sort);
    apply py_ltb_asym; auto.
Qed.

Lemma ordered_sorted (sort : sort_key) (l : list value) :
  ordered_keys (keys_of sort l) = true ->
  Sorted (fun a b =>
            if sort_eq_rating sort
            then py_le (sort_value (sort_field sort) b)
                       (sort_value (sort_field sort) a)
            else py_le (sort_value (sort_field sort) a)
                       (sort_value (sort_field sort) b))
    (ordered sort l).
Proof.
  intros Hk.
  assert (Hs : Sorted (not_after (before_value sort)) (ordered sort l))
    by (apply stable_sort_sorted; intros x y; now apply before_value_asym).
  eapply Sorted_weaken; [| exact Hs].
  intros x y Hx Hy Hxy. unfold not_after, before_value in Hxy.
  apply stable_sort_in in Hx, Hy.
  assert (Hc : forall a b, In a l -> In b l ->
            (is_real (sort_value (sort_field sort) a) = true
             /\ is_real (sort_value (sort_field sort) b) = true)
            \/ (is_str (sort_value (sort_field sort) a) = true
                /\ is_str (sort_value (sort_field sort) b) = true)).
  { intros a b Ha Hb. unfold ordered_keys, keys_of in Hk.
    apply orb_true_iff in Hk as [Hk | Hk]; rewrite forallb_forall in Hk;
      [left | right]; split; apply Hk; now apply in_map. }
  destruct (sort_eq_rating sort); apply not_ltb_py_le; auto.
Qed.

Lemma ordered_stable (sort : sort_key) (k : value) (l : list value) :
  filter (fun s => same_key k (sort_value (sort_field sort) s))
    (ordered sort l)
  = filter (fun s => same_key k (sort_value (sort_field sort) s)) l.
Proof.
  apply stable_sort_filter. intros x y _ _ Hx Hy.
  unfold before_value. simpl.
  destruct (sort_eq_rating sort); eapply same_key_not_ltb; eauto.
Qed.

(* ================================================================== *)
(** * The claims of the specification *)

(** ** The examples of the specification *)

Example query_paris_by_rating :
  exists r, query "Paris" None rating None sample_world = Ok r
            /\ results r = [stay_a; stay_b] /\ selected r = None
            /\ text r = "Found 2 stays in Paris.".
Proof. eexists. split; [reflexivity | repeat split]. Qed.

Example query_paris_min_rating :
  exists r, query "paris" (Some (FFin (4 # 1)%Q)) price None sample_world
            = Ok r
            /\ results r = [stay_a].
Proof. eexists. split; reflexivity. Qed.

Example query_paris_select_b :
  exists r, query "Paris" None price (Some "b") sample_world = Ok r
            /\ results r = [stay_b; stay_a] /\ selected r = Some stay_b.
Proof. eexists. split; [reflexivity | split; reflexivity]. Qed.

(** A rating that is text cannot be compared with a number, nor read by
    this [float()]; a rating beyond the doubles cannot be converted. *)
Example query_text_rating :
  query "Paris" None rating None text_rating_world = Err TypeError
  /\ query "Paris" (Some (FFin (4 # 1)%Q)) rating None text_rating_world
     = Err ValueError
  /\ query "Rio" (Some (FFin (4 # 1)%Q)) rating None huge_world
     = Err OverflowError.
Proof. repeat split; vm_compute; reflexivity. Qed.

Example query_no_city :
  query "Paris" None rating None no_city_world = Err (KeyError "city").
Proof. reflexivity. Qed.

Example query_missing_data :
  query "Paris" None rating None missing_data_world = Err FileNotFoundError.
Proof. reflexivity. Qed.

(** Ratings that are lists are ordered as Python orders lists. *)
Example query_list_ratings :
  exists r, query "Bern" None rating None list_world = Ok r
            /\ results r = [stay_l2; stay_l1].
Proof. eexists. split; reflexivity. Qed.

Section Claims.
Variable srt : sorter.
Variable float_of_str : string -> option pyfloat.
Hypothesis srt_ok : sort_contract srt.

(** C1 (amended).  Every record of the results matches the city, ignoring
    case, against the trimmed argument.  The results hold exactly the
    records of the dataset that match the city and pass the test of the
    rating threshold, [float(rating) >= min_rating]: with no [min_rating]
    these are all the matching records, with [min_rating] given the
    matching records that fail the test are left out. *)
Theorem C1_city_filter (c : string) (min_rating : option pyfloat)
  (sort : sort_key) (selected_id : option string) (w : world)
  (D : list value) (r : ToolResult) :
  data_file w = Json (VList D) ->
  explore_stays srt float_of_str c min_rating sort selected_id w = Ok r ->
  Forall (fun s => city_matches c s = true) (results r)
  /\ Permutation (results r)
       (filter (fun s => city_matches c s
                         && rating_ok float_of_str min_rating s) D)
  /\ (min_rating = None ->
      Permutation (results r) (filter (city_matches c) D)).
Proof.
  intros Hw H. pose proof (results_perm _ _ srt_ok _ _ _ _ _ _ _ Hw H) as Hp.
  split; [| split].
  - apply Forall_forall. intros s Hs.
    apply (Permutation_in _ Hp), filter_In in Hs as (_ & Hs).
    now apply andb_true_iff in Hs as (Hs & _).
  - exact Hp.
  - intros ->. now rewrite keeps_no_rating in Hp.
Qed.

(** C2 (amended).  When the sort keys of the returned records, a missing
    field counting as 0, are numbers other than NaN, or are all strings:
    sorted by rating the results are non-increasing in rating, sorted by
    price non-decreasing in price per night, and the records with any one
    key stand in the order they had in the dataset. *)
Theorem C2_sorted_stable (c : string) (min_rating : option pyfloat)
  (sort : sort_key) (selected_id : option string) (w : world)
  (D : list value) (r : ToolResult) :
  data_file w = Json (VList D) ->
  explore_stays srt float_of_str c min_rating sort selected_id w = Ok r ->
  ordered_keys (keys_of sort (results r)) = true ->
  (sort = rating ->
   Sorted (fun a b => py_le (sort_value "rating" b) (sort_value "rating" a))
     (results r))
  /\ (sort = price ->
      Sorted (fun a b => py_le (sort_value "price_per_night" a)
                               (sort_value "price_per_night" b))
        (results r))
  /\ (forall k,
        filter (fun s => same_key k (sort_value (sort_field sort) s))
          (results r)
        = filter (fun s => same_key k (sort_value (sort_field sort) s)
                           && keeps float_of_str c min_rating s) D).
Proof.
  intros Hw H Hk.
  pose proof (results_ordered _ _ srt_ok _ _ _ _ _ _ _ Hw H Hk) as Hres.
  assert (Hk' : ordered_keys
                  (keys_of sort (filter (keeps float_of_str c min_rating) D))
                = true).
  { rewrite <- Hk. symmetry. apply ordered_keys_perm, keys_of_perm.
    apply (results_perm _ _ srt_ok _ _ _ _ _ _ _ Hw H). }
  pose proof (ordered_sorted sort _ Hk') as Hs. rewrite <- Hres in Hs.
  split; [| split].
  - intros ->. exact Hs.
  - intros ->. exact Hs.
  - intros k. rewrite Hres, ordered_stable, filter_and.
    apply filter_ext. intros s. apply andb_comm.
Qed.

(** C3 (amended).  With [min_rating] given every record of the results has
    a rating, 0 when the field is missing, that [float()] converts to a
    double at least the threshold, and every record of the dataset that
    matches the city and has such a rating is among the results; with no
    [min_rating] the results are all the records that match the city.  The
    comparison is between the converted rating and the threshold, not
    between the rating as written and the threshold. *)
Theorem C3_min_rating (c : string) (min_rating : option pyfloat)
  (sort : sort_key) (selected_id : option string) (w : world)
  (D : list value) (r : ToolResult) :
  data_file w = Json (VList D) ->
  explore_stays srt float_of_str c min_rating sort selected_id w = Ok r ->
  match min_rating with
  | Some q =>
      Forall (fun s => exists x, rating_of float_of_str s = Some x
                                 /\ float_leb q x = true) (results r)
      /\ (forall s x, In s D -> city_matches c s = true ->
            rating_of float_of_str s = Some x -> float_leb q x = true ->
            In s (results r))
  | None => Permutation (results r) (filter (city_matches c) D)
  end.
Proof.
  intros Hw H. pose proof (results_perm _ _ srt_ok _ _ _ _ _ _ _ Hw H) as Hp.
  destruct min_rating as [q |].
  - split.
    + apply Forall_forall. intros s Hs.
      apply (Permutation_in _ Hp), filter_In in Hs as (_ & Hs).
      apply andb_true_iff in Hs as (_ & Hs). simpl in Hs.
      destruct (rating_of float_of_str s) as [x |]; [| discriminate].
      exists x. split; [reflexivity | exact Hs].
    + intros s x Hs Hc Hr Hq.
      apply (Permutation_in _ (Permutation_sym Hp)), filter_In.
      split; [exact Hs |]. unfold keeps. rewrite Hc. simpl. now rewrite Hr.
  - now rewrite keeps_no_rating in Hp.
Qed.

(** C4 (amended).  With a non-empty [selected_id], whenever the query
    returns, [selected] is the first record of the results whose id is
    [selected_id], and is absent when the results hold no such record;
    and the query does return on every dataset of well-formed records. *)
Theorem C4_selection (c : string) (min_rating : option pyfloat)
  (sort : sort_key) (i : string) (w : world) (D : list value) :
  i <> "" ->
  (forall r,
     explore_stays srt float_of_str c min_rating sort (Some i) w = Ok r ->
     match selected r with
     | Some s => exists l1 l2, results r = l1 ++ s :: l2
                               /\ has_id i s = true
                               /\ Forall (fun x => has_id i x = false) l1
     | None => Forall (fun x => has_id i x = false) (results r)
     end)
  /\ (data_file w = Json (VList D) ->
      Forall (fun s => well_formed s = true) D ->
      exists r,
        explore_stays srt float_of_str c min_rating sort (Some i) w = Ok r).
Proof.
  intros Hi. split.
  - intros r H.
    apply explore_stays_ok in H as (_ & _ & _ & _ & _ & Hsel & _).
    rewrite Hsel. unfold selection.
    destruct i as [| a i]; [congruence |]. simpl.
    apply find_first.
  - intros Hw Hwf. now apply explore_stays_returns with D.
Qed.

(** C5 (amended).  The city of the structured result is the argument with
    the surrounding whitespace trimmed; its case is kept. *)
Theorem C5_city_echo (c : string) (min_rating : option pyfloat)
  (sort : sort_key) (selected_id : option string) (w : world)
  (r : ToolResult) :
  explore_stays srt float_of_str c min_rating sort selected_id w = Ok r ->
  city r = PyStr.strip c.
Proof.
  intros H.
  now apply explore_stays_ok in H as (_ & _ & _ & _ & _ & _ & Hc & _).
Qed.
End Claims.

(** C1, as stated, fails: with a rating threshold a record that matches the
    city is left out of the results. *)
Lemma C1_counterexample :
  exists r,
    query "paris" (Some (FFin (4 # 1)%Q)) price None sample_world = Ok r
    /\ In stay_b [stay_a; stay_b; stay_c]
    /\ city_matches "paris" stay_b = true
    /\ ~ In stay_b (results r).
Proof.
  eexists. split; [reflexivity |]. split; [simpl; auto |].
  split; [reflexivity |]. simpl. intros [H | []]. discriminate H.
Qed.

Lemma C1_city_filter_witness :
  exists r,
    query "paris" (Some (FFin (4 # 1)%Q)) price None sample_world = Ok r
    /\ Forall (fun s => city_matches "paris" s = true) (results r)
    /\ Permutation (results r)
         (filter (fun s => city_matches "paris" s
                           && rating_ok no_float (Some (FFin (4 # 1)%Q)) s)
            [stay_a; stay_b; stay_c])
    /\ (Some (FFin (4 # 1)%Q) = None ->
        Permutation (results r)
          (filter (city_matches "paris") [stay_a; stay_b; stay_c])).
Proof.
  eexists. split; [reflexivity |].
  apply (C1_city_filter reference_sort no_float reference_sort_contract
           "paris" (Some (FFin (4 # 1)%Q)) price None
           sample_world [stay_a; stay_b; stay_c]); reflexivity.
Defined.

(** C2, as stated, fails: a rating that is NaN, which [json.loads] accepts,
    is neither above nor below another rating, so the results are not
    non-increasing in rating. *)
Lemma C2_counterexample :
  exists r,
    query "Lima" None rating None nan_world = Ok r
    /\ results r = [stay_nan; stay_lima]
    /\ ~ Sorted (fun a b => py_le (sort_value "rating" b)
                                  (sort_value "rating" a)) (results r).
Proof.
  eexists. split; [reflexivity |]. split; [reflexivity |].
  simpl. intros H. inversion H as [| ? ? _ Hd]; subst.
  inversion Hd as [| ? ? Hle]; subst. discriminate Hle.
Qed.

Lemma C2_sorted_stable_witness :
  exists r,
    query "Paris" None price None sample_world = Ok r
    /\ (price = rating ->
        Sorted (fun a b => py_le (sort_value "rating" b)
                                 (sort_value "rating" a)) (results r))
    /\ (price = price ->
        Sorted (fun a b => py_le (sort_value "price_per_night" a)
                                 (sort_value "price_per_night" b))
          (results r))
    /\ (forall k,
          filter (fun s => same_key k (sort_value (sort_field price) s))
            (results r)
          = filter (fun s => same_key k (sort_value (sort_field price) s)
                             && keeps no_float "Paris" None s)
              [stay_a; stay_b; stay_c]).
Proof.
  eexists. split; [reflexivity |].
  apply (C2_sorted_stable reference_sort no_float reference_sort_contract
           "Paris" None price None sample_world
           [stay_a; stay_b; stay_c]); reflexivity.
Defined.

(** C3, as stated, fails: a rating written as the integer 9007199254740995
    is below the threshold 9007199254740996.0, yet [float()] rounds it up
    to the threshold and the record is returned. *)
Lemma C3_counterexample :
  exists r,
    query "Rio" (Some (FFin (inject_Z 9007199254740996))) rating None
      big_world = Ok r
    /\ results r = [stay_big]
    /\ sort_value "rating" stay_big = VInt 9007199254740995
    /\ py_ltb (VInt 9007199254740995)
              (VFloat (FFin (inject_Z 9007199254740996))) = true.
Proof.
  eexists. split; [reflexivity |]. repeat split.
Qed.

Lemma C3_min_rating_witness :
  exists r,
    query "paris" (Some (FFin (4 # 1)%Q)) rating None sample_world = Ok r
    /\ Forall (fun s => exists x, rating_of no_float s = Some x
                                  /\ float_leb (FFin (4 # 1)%Q) x = true)
         (results r)
    /\ (forall s x, In s [stay_a; stay_b; stay_c] ->
          city_matches "paris" s = true ->
          rating_of no_float s = Some x ->
          float_leb (FFin (4 # 1)%Q) x = true ->
          In s (results r)).
Proof.
  eexists. split; [reflexivity |].
  apply (C3_min_rating reference_sort no_float reference_sort_contract
           "paris" (Some (FFin (4 # 1)%Q)) rating None
           sample_world [stay_a; stay_b; stay_c]); reflexivity.
Defined.

(** C4, as stated, fails for the empty id: a record of the results has that
    id and nothing is selected. *)
Lemma C4_counterexample :
  exists r,
    query "Oslo" None rating (Some "") blank_id_world = Ok r
    /\ In stay_blank_id (results r)
    /\ has_id "" stay_blank_id = true
    /\ selected r = None.
Proof.
  eexists. split; [reflexivity |]. simpl. auto.
Qed.

Lemma C4_selection_witness :
  (forall r,
     query "Paris" None price (Some "b") sample_world = Ok r ->
     match selected r with
     | Some s => exists l1 l2, results r = l1 ++ s :: l2
                               /\ has_id "b" s = true
                               /\ Forall (fun x => has_id "b" x = false) l1
     | None => Forall (fun x => has_id "b" x = false) (results r)
     end)
  /\ exists r, query "Paris" None price (Some "b") sample_world = Ok r.
Proof.
  assert (Hi : "b" <> "") by discriminate.
  split.
  - apply (proj1 (C4_selection reference_sort no_float
                    reference_sort_contract "Paris" None price "b"
                    sample_world [stay_a; stay_b; stay_c] Hi)).
  - apply (proj2 (C4_selection reference_sort no_float
                    reference_sort_contract "Paris" None price "b"
                    sample_world [stay_a; stay_b; stay_c] Hi)).
    + reflexivity.
    + repeat constructor.
Defined.

(** C5, as stated, fails: the city of the result keeps the capitals of the
    argument. *)
Lemma C5_counterexample :
  exists r,
    query " Paris " None rating None sample_world = Ok r
    /\ city r = "Paris"
    /\ city r <> PyStr.lower (PyStr.strip " Paris ").
Proof.
  eexists. split; [reflexivity |]. split; [reflexivity |]. discriminate.
Qed.

Lemma C5_city_echo_witness :
  exists r,
    query " Paris " None rating None sample_world = Ok r
    /\ city r = PyStr.strip " Paris ".
Proof.
  eexists. split; [reflexivity |].
  apply (C5_city_echo reference_sort no_float " Paris " None rating None
           sample_world).
  reflexivity.
Defined.

(** ** The widget asset lookup *)

Lemma sorted_paths_last (l : list (path * node)) (e : path * node)
  (t : list (path * node)) :
  rev (sorted_paths l) = e :: t ->
  In e l /\ forall e', In e' l -> path_leb (fst e') (fst e) = true.
Proof.
  intros H. apply stable_sort_last in H as (Hin & Hmax).
  - split; [exact Hin |]. intros e' He'.
    destruct (Hmax e' He') as [-> | Hle]; [apply path_leb_refl |].
    now apply not_path_ltb_leb.
  - intros x y. apply path_ltb_asym.
  - intros x y z. unfold not_after. apply not_path_ltb_trans.
Qed.

Lemma sorted_paths_nil (l : list (path * node)) :
  rev (sorted_paths l) = [] -> l = [].
Proof.
  intros H. apply (f_equal (@rev _)) in H. rewrite rev_involutive in H.
  simpl in H. apply Permutation_nil. rewrite <- H.
  unfold sorted_paths. apply stable_sort_perm.
Qed.

(** C6.  With two builds of the script in the assets directory the lookup
    returns the text of the one whose path is last in the order of paths:
    here the older build, while the most recently modified entry, which is
    also the first match in the order of paths, is the newer one. *)
Theorem C6_failing_input :
  find_built_asset ".js" sample_world = Ok "console.log(1)"
  /\ most_recent "*.js" sample_world script_new
  /\ first_sorted "*.js" sample_world script_new
  /\ read_text (snd script_new) = Ok "console.log(2)".
Proof.
  split; [reflexivity |]. split; [| split; [| reflexivity]].
  - exists [script_new; script_old]. split; [reflexivity |].
    split; [simpl; auto |].
    intros e' [<- | [<- | []]]; simpl; lia.
  - exists [script_new; script_old]. split; [reflexivity |].
    split; [simpl; auto |].
    intros e' [<- | [<- | []]]; reflexivity.
Qed.

(** ** Reading the dataset *)

(** C7.  The answer of the query is a function of its arguments and of the
    dataset file alone: two calls with the same arguments, made in states
    of the file system that agree on the dataset file, return the same
    answer (results, selection, structured content and summary text) or
    raise the same exception. *)
Theorem C7_deterministic (srt : sorter)
  (float_of_str : string -> option pyfloat) (c : string)
  (min_rating : option pyfloat) (sort : sort_key)
  (selected_id : option string) (w1 w2 : world) :
  data_file w1 = data_file w2 ->
  explore_stays srt float_of_str c min_rating sort selected_id w1
  = explore_stays srt float_of_str c min_rating sort selected_id w2.
Proof.
  intros H. unfold explore_stays, load_stays. now rewrite H.
Qed.

Lemma C7_deterministic_witness :
  query "Paris" None price (Some "b") sample_world
  = query "Paris" None price (Some "b")
      (dataset_world [stay_a; stay_b; stay_c]).
Proof.
  apply (C7_deterministic reference_sort no_float "Paris" None price
           (Some "b") sample_world (dataset_world [stay_a; stay_b; stay_c])).
  reflexivity.
Defined.

(** C8.  When the dataset file cannot be read or parsed the loader raises,
    and the query raises the same exception, whatever its arguments, so it
    gives no result; when the file holds a JSON document the loader
    returns the whole document. *)
Theorem C8_loader (w : world) :
  match data_file w with
  | Json doc => load_stays w = Ok doc
  | _ => exists e,
           load_stays w = Err e
           /\ forall srt float_of_str c min_rating sort selected_id,
                explore_stays srt float_of_str c min_rating sort selected_id w
                = Err e
  end.
Proof.
  unfold explore_stays, load_stays.
  destruct (data_file w); try reflexivity; eexists; split; reflexivity.
Qed.

(** C9.  The empty string as [selected_id] is taken as no selection: the
    query answers as it does without a [selected_id], and nothing is
    selected even when a record of the results has the empty id. *)
Theorem C9_empty_selected_id (srt : sorter)
  (float_of_str : string -> option pyfloat)
  (c : string) (min_rating : option pyfloat) (sort : sort_key) (w : world) :
  explore_stays srt float_of_str c min_rating sort (Some "") w
  = explore_stays srt float_of_str c min_rating sort None w
  /\ forall r,
       explore_stays srt float_of_str c min_rating sort (Some "") w = Ok r ->
       selected r = None.
Proof.
  split; [reflexivity |]. intros r H.
  now apply explore_stays_ok in H as (_ & _ & _ & _ & _ & Hsel & _).
Qed.

Lemma C9_empty_selected_id_witness :
  exists r,
    query "Oslo" None rating (Some "") blank_id_world = Ok r
    /\ In stay_blank_id (results r)
    /\ selected r = None.
Proof.
  eexists. split; [reflexivity |]. split; [simpl; auto |].
  apply (proj2 (C9_empty_selected_id reference_sort no_float "Oslo" None
                  rating blank_id_world)).
  reflexivity.
Defined.

(** ** Field access *)



(* ================================================================== *)
(** * Further properties of the code *)

(** ** The city argument *)

Section CityArgument.
Variable srt : sorter.
Variable float_of_str : string -> option pyfloat.

(** X1.  The query reads the city only through its trimmed, lower-cased
    form: two city arguments with the same normal form give the same
    results and the same selection, and raise the same exception when one
    of them raises. *)
Theorem query_city_insensitive (c1 c2 : string)
  (min_rating : option pyfloat) (sort : sort_key)
  (selected_id : option string) (w : world) :
  PyStr.lower (PyStr.strip c1) = PyStr.lower (PyStr.strip c2) ->
  (forall r1,
     explore_stays srt float_of_str c1 min_rating sort selected_id w = Ok r1 ->
     exists r2,
       explore_stays srt float_of_str c2 min_rating sort selected_id w = Ok r2
       /\ results r2 = results r1 /\ selected r2 = selected r1)
  /\ (forall e,
        explore_stays srt float_of_str c1 min_rating sort selected_id w
        = Err e ->
        explore_stays srt float_of_str c2 min_rating sort selected_id w
        = Err e).
Proof. apply same_normal_form. Qed.

(** X2.  The city echoed in the answer is already trimmed: it neither
    begins nor ends with whitespace, and a second query with the echoed
    city in place of the argument returns the very same answer. *)
Theorem query_echo_roundtrip (c : string) (min_rating : option pyfloat)
  (sort : sort_key) (selected_id : option string) (w : world)
  (r : ToolResult) :
  explore_stays srt float_of_str c min_rating sort selected_id w = Ok r ->
  not_space (first_char (city r))
  /\ not_space (last_char (city r))
  /\ explore_stays srt float_of_str (city r) min_rating sort selected_id w
     = Ok r.
Proof.
  intros H.
  assert (Hc : city r = PyStr.strip c)
    by now apply explore_stays_ok in H as (_ & _ & _ & _ & _ & _ & Hc & _).
  rewrite Hc. split; [apply strip_first |]. split; [apply strip_last |].
  rewrite <- H. unfold explore_stays. now rewrite strip_idem.
Qed.

(** X3.  Lower-casing and trimming the city beforehand changes neither the
    results nor the selection; the answer then echoes the normal form. *)
Theorem query_normalized_city (c : string) (min_rating : option pyfloat)
  (sort : sort_key) (selected_id : option string) (w : world)
  (r : ToolResult) :
  explore_stays srt float_of_str c min_rating sort selected_id w = Ok r ->
  exists r',
    explore_stays srt float_of_str (PyStr.lower (PyStr.strip c)) min_rating
      sort selected_id w = Ok r'
    /\ results r' = results r /\ selected r' = selected r
    /\ city r' = PyStr.lower (PyStr.strip c).
Proof.
  intros H.
  assert (Hn : PyStr.lower (PyStr.strip c)
               = PyStr.lower (PyStr.strip (PyStr.lower (PyStr.strip c))))
    by now rewrite strip_lower, strip_idem, lower_idem.
  destruct (proj1 (same_normal_form srt float_of_str c
                     (PyStr.lower (PyStr.strip c)) min_rating sort
                     selected_id w Hn) r H) as (r' & Hr' & Hres & Hsel).
  exists r'. repeat split; try assumption.
  apply explore_stays_ok in Hr' as (_ & _ & _ & _ & _ & _ & Hc & _).
  rewrite Hc. now rewrite strip_lower, strip_idem.
Qed.
End CityArgument.

(** ** The answer and the dataset *)

Section Answer.
Variable srt : sorter.
Variable float_of_str : string -> option pyfloat.
Hypothesis srt_ok : sort_contract srt.

(** X4.  The number in the summary text is the number of records of the
    dataset that match the city and pass the test of the rating threshold,
    [float(rating) >= min_rating], whatever the sort and the selection; the
    answer repeats the threshold and the sort it was asked with. *)
Theorem summary_counts_matches (c : string) (min_rating : option pyfloat)
  (sort : sort_key) (selected_id : option string) (w : world)
  (D : list value) (r : ToolResult) :
  data_file w = Json (VList D) ->
  explore_stays srt float_of_str c min_rating sort selected_id w = Ok r ->
  text r
  = ("Found "
       ++ PyStr.of_nat
            (List.length (filter (keeps float_of_str c min_rating) D))
       ++ " stays in " ++ PyStr.strip c ++ ".")%string
  /\ List.length (results r)
     = List.length (filter (keeps float_of_str c min_rating) D)
  /\ applied_min_rating r = min_rating
  /\ applied_sort r = sort.
Proof.
  intros Hw H.
  pose proof (Permutation_length
                (results_perm _ _ srt_ok _ _ _ _ _ _ _ Hw H)) as Hlen.
  apply explore_stays_ok in H
    as (_ & _ & _ & _ & _ & _ & _ & Ht & Hm & Hs).
  rewrite Ht, Hlen. auto.
Qed.

(** X5.  A city that no record has is not an error: when every record
    carries a string city and none matches, the query returns an empty
    result list and no selection, whatever the ratings, prices and ids of
    the records are. *)
Theorem no_match_is_empty_success (c : string)
  (min_rating : option pyfloat) (sort : sort_key)
  (selected_id : option string) (w : world) (D : list value) :
  data_file w = Json (VList D) ->
  Forall (fun s => has_str_city s = true) D ->
  Forall (fun s => city_matches c s = false) D ->
  explore_stays srt float_of_str c min_rating sort selected_id w
  = Ok {| text := "Found 0 stays in " ++ PyStr.strip c ++ ".";
          city := PyStr.strip c;
          results := [];
          selected := None;
          applied_min_rating := min_rating;
          applied_sort := sort |}.
Proof.
  intros Hw Hc Hno.
  rewrite (explore_stays_stages _ _ _ _ _ _ _ D Hw Hc).
  rewrite (filter_none _ _ Hno).
  destruct min_rating as [q |]; simpl;
    rewrite (list_sort_nil srt srt_ok); simpl;
    destruct selected_id as [[| a i] |]; reflexivity.
Qed.

(** X6.  Raising the threshold only removes records: every record returned
    with the higher [min_rating] is returned with the lower one, and every
    record returned with a threshold is returned without it. *)
Theorem min_rating_monotone (c : string) (q1 q2 : pyfloat)
  (sort : sort_key) (selected_id : option string) (w : world)
  (r0 r1 r2 : ToolResult) :
  float_leb q1 q2 = true ->
  explore_stays srt float_of_str c None sort selected_id w = Ok r0 ->
  explore_stays srt float_of_str c (Some q1) sort selected_id w = Ok r1 ->
  explore_stays srt float_of_str c (Some q2) sort selected_id w = Ok r2 ->
  (forall s, In s (results r2) -> In s (results r1))
  /\ (forall s, In s (results r1) -> In s (results r0)).
Proof.
  intros Hq H0 H1 H2.
  apply (results_items_perm _ _ srt_ok) in H0
    as (it0 & (st0 & Hl0 & Hi0) & Hp0).
  apply (results_items_perm _ _ srt_ok) in H1
    as (it1 & (st1 & Hl1 & Hi1) & Hp1).
  apply (results_items_perm _ _ srt_ok) in H2
    as (it2 & (st2 & Hl2 & Hi2) & Hp2).
  assert (st1 = st0) by congruence. subst st1.
  assert (st2 = st0) by congruence. subst st2.
  assert (it1 = it0) by congruence. subst it1.
  assert (it2 = it0) by congruence. subst it2.
  split; intros s Hs.
  - apply (Permutation_in _ Hp2), filter_In in Hs as (Hin & Hk).
    apply (Permutation_in _ (Permutation_sym Hp1)), filter_In.
    split; [exact Hin |]. unfold keeps in *.
    apply andb_true_iff in Hk as (Hc & Hr). rewrite Hc. simpl in *.
    destruct (rating_of float_of_str s) as [x |]; [| discriminate].
    now apply float_leb_trans with q2.
  - apply (Permutation_in _ Hp1), filter_In in Hs as (Hin & Hk).
    apply (Permutation_in _ (Permutation_sym Hp0)), filter_In.
    split; [exact Hin |]. unfold keeps in *.
    apply andb_true_iff in Hk as (Hc & _). now rewrite Hc.
Qed.

(** X7.  Which records are returned depends on the city and the threshold
    only: two queries that differ in the sort or in the selection return
    the same records, in possibly different orders. *)
Theorem sort_and_selection_keep_records (c : string)
  (min_rating : option pyfloat) (sort1 sort2 : sort_key)
  (selected1 selected2 : option string) (w : world) (r1 r2 : ToolResult) :
  explore_stays srt float_of_str c min_rating sort1 selected1 w = Ok r1 ->
  explore_stays srt float_of_str c min_rating sort2 selected2 w = Ok r2 ->
  Permutation (results r1) (results r2).
Proof.
  intros H1 H2.
  apply (results_items_perm _ _ srt_ok) in H1
    as (it1 & (st1 & Hl1 & Hi1) & Hp1).
  apply (results_items_perm _ _ srt_ok) in H2
    as (it2 & (st2 & Hl2 & Hi2) & Hp2).
  assert (st2 = st1) by congruence. subst st2.
  assert (it2 = it1) by congruence. subst it2.
  now rewrite Hp1, Hp2.
Qed.

(** ** Malformed documents and records *)

(** X8.  A dataset file whose JSON document is not an array makes the query
    raise [TypeError], except for the empty object and the empty string,
    over which the loop does not run: these give an empty answer. *)
Theorem non_list_document (c : string) (min_rating : option pyfloat)
  (sort : sort_key) (selected_id : option string) (w : world)
  (doc : value) :
  data_file w = Json doc ->
  (forall l, doc <> VList l) ->
  if match doc with
     | VDict [] => true
     | VStr EmptyString => true
     | _ => false
     end
  then exists r,
         explore_stays srt float_of_str c min_rating sort selected_id w = Ok r
         /\ results r = [] /\ selected r = None
  else explore_stays srt float_of_str c min_rating sort selected_id w
       = Err TypeError.
Proof.
  intros Hw Hl. unfold explore_stays, load_stays. rewrite Hw.
  destruct doc as [| b | z | f | s | l | items]; simpl; try reflexivity.
  - destruct s as [| a s]; simpl; [| reflexivity].
    destruct min_rating; simpl; rewrite (list_sort_nil srt srt_ok); simpl;
      destruct selected_id as [[| a i] |]; simpl; eauto.
  - now elim (Hl l).
  - destruct items as [| [k v] items]; simpl; [| reflexivity].
    destruct min_rating; simpl; rewrite (list_sort_nil srt srt_ok); simpl;
      destruct selected_id as [[| a i] |]; simpl; eauto.
Qed.

(** X9.  The first record that lacks a usable city decides the exception:
    after records that all carry a string city, a record without the key
    raises [KeyError] on [city], a record whose city is not a string
    raises [AttributeError], and an element that is not an object raises
    [TypeError]; the records after it are not looked at. *)
Theorem first_bad_city (c : string) (min_rating : option pyfloat)
  (sort : sort_key) (selected_id : option string) (w : world)
  (l1 l2 : list value) (s : value) :
  data_file w = Json (VList (l1 ++ s :: l2)) ->
  Forall (fun x => has_str_city x = true) l1 ->
  has_str_city s = false ->
  explore_stays srt float_of_str c min_rating sort selected_id w
  = Err (if is_dict s
         then if has_field "city" s then AttributeError
              else KeyError "city"
         else TypeError).
Proof.
  intros Hw Hl1 Hs. unfold explore_stays, load_stays. rewrite Hw. simpl.
  rewrite (filterM_first_error _ l1 l2 s
             (if is_dict s
              then if has_field "city" s then AttributeError
                   else KeyError "city"
              else TypeError)); [reflexivity | |].
  - eapply Forall_impl; [| exact Hl1]. intros x Hx.
    now apply city_test_defined.
  - unfold has_str_city, has_field, field in *. unfold city_test, subscript.
    destruct s; simpl; try reflexivity.
    destruct (dict_lookup "city" items) as [v |]; simpl; [| reflexivity].
    destruct v; simpl; try reflexivity. discriminate.
Qed.

(** X10.  The scan for the selection stops at the first match: when the
    records before it carry other ids, a record with the searched id is
    selected without the later records being read, while a record without
    an [id] at that place raises [KeyError] on [id]. *)
Theorem selection_stops_at_first_match (c : string)
  (min_rating : option pyfloat) (sort : sort_key) (i : string) (w : world)
  (r0 : ToolResult) (l1 l2 : list value) (s : value) :
  i <> "" ->
  explore_stays srt float_of_str c min_rating sort None w = Ok r0 ->
  results r0 = l1 ++ s :: l2 ->
  Forall (fun x => has_field "id" x = true /\ has_id i x = false) l1 ->
  (has_id i s = true ->
   explore_stays srt float_of_str c min_rating sort (Some i) w
   = Ok (with_selected r0 (Some s)))
  /\ (has_field "id" s = false ->
      explore_stays srt float_of_str c min_rating sort (Some i) w
      = Err (KeyError "id")).
Proof.
  intros Hi H0 Hres Hl1.
  assert (Hd : is_dict s = true).
  { pose proof H0 as H. apply (results_items_perm _ _ srt_ok) in H
      as (items & _ & Hp).
    pose proof (keeps_dict float_of_str c min_rating items) as Hk.
    rewrite Forall_forall in Hk. apply Hk.
    apply (Permutation_in _ Hp). rewrite Hres.
    apply in_or_app. right. now left. }
  rewrite explore_stays_select, H0. simpl.
  destruct i as [| a i]; [congruence |]. simpl. rewrite Hres.
  rewrite (scan_skip _ _ _ Hl1). simpl. split.
  - unfold has_id. intros Hs.
    destruct (field "id" s) as [v |] eqn:E; [| discriminate].
    apply subscript_field in E. rewrite E. simpl. now rewrite Hs.
  - unfold has_field, field, subscript. destruct s; try discriminate.
    now destruct (dict_lookup "id" items).
Qed.

(** X11.  On a dataset of well-formed records (objects with string id and
    city, a rating that [float()] converts and a price that is a number,
    when they carry them) the query raises for no argument: it returns the
    records that match the city and pass the rating test, with the first
    record of the selected id; when none of their sort keys is NaN they
    stand in the stable order of the sort. *)
Theorem well_formed_query_returns (c : string)
  (min_rating : option pyfloat) (sort : sort_key)
  (selected_id : option string) (w : world) (D : list value) :
  data_file w = Json (VList D) ->
  Forall (fun s => well_formed s = true) D ->
  exists r,
    explore_stays srt float_of_str c min_rating sort selected_id w = Ok r
    /\ Permutation (results r) (filter (keeps float_of_str c min_rating) D)
    /\ selected r = selection selected_id (results r)
    /\ (ordered_keys (keys_of sort (results r)) = true ->
        results r
        = ordered sort (filter (keeps float_of_str c min_rating) D)).
Proof.
  intros Hw Hwf.
  destruct (explore_stays_returns srt float_of_str srt_ok c min_rating sort
              selected_id w D Hw Hwf) as (r & Hr).
  exists r. split; [exact Hr |]. split; [| split].
  - apply (results_perm _ _ srt_ok _ _ _ _ _ _ _ Hw Hr).
  - pose proof Hr as Hr'.
    now apply explore_stays_ok in Hr' as (st & it & _ & _ & _ & Hsel & _).
  - apply (results_ordered _ _ srt_ok _ _ _ _ _ _ _ Hw Hr).
Qed.

(** X12.  When the sort keys of the returned records are numbers other
    than NaN, or are all strings, the order of the answer holds between
    any two of its records, not only between neighbours: sorted by rating
    the first record has a rating at least that of every other record of
    the results, sorted by price a price at most that of every other
    one. *)
Theorem first_result_is_best (c : string) (min_rating : option pyfloat)
  (sort : sort_key) (selected_id : option string) (w : world)
  (D : list value) (r : ToolResult) (s : value) (rest : list value) :
  data_file w = Json (VList D) ->
  explore_stays srt float_of_str c min_rating sort selected_id w = Ok r ->
  ordered_keys (keys_of sort (results r)) = true ->
  results r = s :: rest ->
  match sort with
  | rating =>
      Forall (fun x => py_le (sort_value "rating" x) (sort_value "rating" s))
        rest
  | price =>
      Forall (fun x => py_le (sort_value "price_per_night" s)
                             (sort_value "price_per_night" x)) rest
  end.
Proof.
  intros Hw H Hk Hres.
  pose proof (results_ordered _ _ srt_ok _ _ _ _ _ _ _ Hw H Hk) as Ho.
  assert (Hk' : ordered_keys
                  (keys_of sort (filter (keeps float_of_str c min_rating) D))
                = true).
  { rewrite <- Hk. symmetry. apply ordered_keys_perm, keys_of_perm.
    apply (results_perm _ _ srt_ok _ _ _ _ _ _ _ Hw H). }
  pose proof (ordered_sorted sort _ Hk') as Hs.
  rewrite <- Ho, Hres in Hs.
  apply Sorted_StronglySorted in Hs.
  - apply StronglySorted_inv in Hs as (_ & Hs). destruct sort; exact Hs.
  - intros x y z. destruct (sort_eq_rating sort); intros Hxy Hyz;
      eapply py_le_trans; eauto.
Qed.
End Answer.

(** ** The selection and the rest of the answer *)

(** X17.  A [selected_id] changes nothing but the selection: a query that
    returns with it returns without it the same answer with no selection,
    and a query that raises without it raises the same exception with
    it. *)
Theorem selection_only_sets_selected (srt : sorter)
  (float_of_str : string -> option pyfloat)
  (c : string) (min_rating : option pyfloat) (sort : sort_key) (i : string)
  (w : world) :
  (forall r,
     explore_stays srt float_of_str c min_rating sort (Some i) w = Ok r ->
     explore_stays srt float_of_str c min_rating sort None w
     = Ok (with_selected r None))
  /\ (forall e,
        explore_stays srt float_of_str c min_rating sort None w = Err e ->
        explore_stays srt float_of_str c min_rating sort (Some i) w = Err e).
Proof.
  rewrite explore_stays_select.
  destruct (explore_stays srt float_of_str c min_rating sort None w)
    as [r0 | e0] eqn:E0; simpl; split; try discriminate.
  - intros r H.
    assert (Hnone : selected r0 = None)
      by now apply explore_stays_ok in E0 as (_ & _ & _ & _ & _ & Hs & _).
    assert (Hr0 : r0 = with_selected r0 None)
      by (destruct r0; simpl in *; now subst).
    destruct (truthy i).
    + destruct (scan i (results r0)) as [sel | e]; [| discriminate].
      simpl in H. inversion H; subst r. exact (f_equal Ok Hr0).
    + inversion H; subst r. exact (f_equal Ok Hr0).
  - intros e H. inversion H. reflexivity.
Qed.

(** ** The widget resource *)

Lemma unique_path {B : Type} (l : list (path * B)) (e e' : path * B) :
  NoDup (map fst l) -> In e l -> In e' l -> fst e = fst e' -> e = e'.
Proof.
  induction l as [| x l IH]; simpl; intros Hnd He He' Hfst; [contradiction |].
  inversion Hnd as [| ? ? Hx Hl]; subst.
  destruct He as [-> | He], He' as [-> | He']; auto.
  - exfalso. apply Hx. rewrite Hfst. now apply in_map.
  - exfalso. apply Hx. rewrite <- Hfst. now apply in_map.
Qed.

Lemma find_built_asset_none (suffix : string) (w : world) :
  glob w ("*" ++ suffix) = Ok [] ->
  find_built_asset suffix w = Err FileNotFoundError.
Proof. unfold find_built_asset. now intros ->. Qed.

Lemma find_built_asset_some (suffix : string) (w : world) (t : string) :
  find_built_asset suffix w = Ok t ->
  exists found, glob w ("*" ++ suffix) = Ok found /\ found <> [].
Proof.
  unfold find_built_asset.
  destruct (glob w ("*" ++ suffix)) as [found | e]; simpl; [| discriminate].
  intros H. exists found. split; [reflexivity |]. intros ->. discriminate.
Qed.

(** X13.  When a script and a style sheet are found, the widget resource
    is one content of type [text/html+skybridge]: the root element, the
    style sheet inside a [style] element and the script inside a module
    [script] element, with no blank line before or after, whatever the two
    texts contain. *)
Theorem widget_page_form (w : world) (css js : string) :
  find_built_asset ".js" w = Ok js ->
  find_built_asset ".css" w = Ok css ->
  build_widget_html w = Ok (widget_page css js)
  /\ stays_widget w
     = Ok {| contents := [ {| content := widget_page css js;
                              mime_type := "text/html+skybridge" |} ];
             widget_prefers_border := true |}.
Proof.
  intros Hjs Hcss. unfold stays_widget, build_widget_html.
  rewrite Hjs, Hcss. simpl. rewrite strip_widget_template. auto.
Qed.

(** X14.  The widget resource needs both assets and looks for the script
    first: it raises [FileNotFoundError] when no script is built, and when
    a script is read but no style sheet is built; when it returns, both
    kinds of asset exist.  An exception of the script lookup is raised
    before the style sheet is looked for. *)
Theorem widget_needs_both_assets (w : world) :
  (glob w "*.js" = Ok [] -> stays_widget w = Err FileNotFoundError)
  /\ (forall js, find_built_asset ".js" w = Ok js ->
        glob w "*.css" = Ok [] -> stays_widget w = Err FileNotFoundError)
  /\ (forall e, find_built_asset ".js" w = Err e -> stays_widget w = Err e)
  /\ (forall r, stays_widget w = Ok r ->
        (exists scripts, glob w "*.js" = Ok scripts /\ scripts <> [])
        /\ (exists styles, glob w "*.css" = Ok styles /\ styles <> [])).
Proof.
  unfold stays_widget, build_widget_html. repeat split.
  - intros H. now rewrite (find_built_asset_none ".js" w H).
  - intros js Hjs H. now rewrite Hjs, (find_built_asset_none ".css" w H).
  - intros e H. now rewrite H.
  - destruct (find_built_asset ".js" w) as [js |] eqn:E; [| discriminate].
    now apply find_built_asset_some in E.
  - destruct (find_built_asset ".js" w) as [js |]; [| discriminate].
    simpl in H.
    destruct (find_built_asset ".css" w) as [css |] eqn:E; [| discriminate].
    now apply find_built_asset_some in E.
Qed.

(** ** The asset lookup and the directory listing *)

(** X16.  The asset returned does not depend on the order in which the
    directory lists its entries: two listings of the same entries, with
    one entry per path, give the same answer. *)
Theorem asset_lookup_order_independent (suffix : string) (w1 w2 : world)
  (l1 l2 : list (path * node)) :
  glob w1 ("*" ++ suffix) = Ok l1 -> glob w2 ("*" ++ suffix) = Ok l2 ->
  Permutation l1 l2 -> NoDup (map fst l1) ->
  find_built_asset suffix w1 = find_built_asset suffix w2.
Proof.
  intros H1 H2 Hg Hnd. unfold find_built_asset. rewrite H1, H2. simpl.
  destruct (rev (sorted_paths l1)) as [| e1 t1] eqn:E1;
    destruct (rev (sorted_paths l2)) as [| e2 t2] eqn:E2.
  - reflexivity.
  - apply sorted_paths_nil in E1. apply sorted_paths_last in E2 as (Hin & _).
    rewrite E1 in Hg. apply Permutation_nil in Hg. rewrite Hg in Hin.
    contradiction.
  - apply sorted_paths_nil in E2. apply sorted_paths_last in E1 as (Hin & _).
    rewrite E2 in Hg. apply Permutation_sym, Permutation_nil in Hg.
    rewrite Hg in Hin. contradiction.
  - apply sorted_paths_last in E1 as (Hin1 & Hmax1).
    apply sorted_paths_last in E2 as (Hin2 & Hmax2).
    assert (Hin2' : In e2 l1)
      by (apply (Permutation_in _ (Permutation_sym Hg)); exact Hin2).
    assert (Hin1' : In e1 l2)
      by (apply (Permutation_in _ Hg); exact Hin1).
    assert (He : e1 = e2).
    { apply (unique_path l1); auto.
      apply path_leb_antisym; auto. }
    now rewrite He.
Qed.

(** X18.  The lookup raises what the glob raises; it raises
    [FileNotFoundError] when the glob yields nothing; otherwise it answers
    with what reading one of the entries gives, the text or the exception:
    the entry whose path is last in the order of paths. *)
Theorem asset_lookup_takes_last (suffix : string) (w : world) :
  match glob w ("*" ++ suffix) with
  | Err e => find_built_asset suffix w = Err e
  | Ok [] => find_built_asset suffix w = Err FileNotFoundError
  | Ok found =>
      exists e,
        In e found
        /\ (forall e', In e' found -> path_leb (fst e') (fst e) = true)
        /\ find_built_asset suffix w = read_text (snd e)
  end.
Proof.
  unfold find_built_asset.
  destruct (glob w ("*" ++ suffix)) as [found | e]; simpl; [| reflexivity].
  destruct found as [| x found]; [reflexivity |].
  destruct (rev (sorted_paths (x :: found))) as [| e t] eqn:E.
  - apply sorted_paths_nil in E. discriminate.
  - apply sorted_paths_last in E as (Hin & Hmax). exists e. auto.
Qed.

(** ** The further properties on the sample data *)

Lemma query_city_insensitive_witness :
  (forall r1,
     query " PARIS" None rating None sample_world = Ok r1 ->
     exists r2,
       query "paris  " None rating None sample_world = Ok r2
       /\ results r2 = results r1 /\ selected r2 = selected r1)
  /\ (forall e,
        query " PARIS" None rating None sample_world = Err e ->
        query "paris  " None rating None sample_world = Err e).
Proof.
  apply (query_city_insensitive reference_sort no_float " PARIS" "paris  "
           None rating None sample_world).
  reflexivity.
Defined.

Lemma query_echo_roundtrip_witness :
  exists r,
    query "  Paris " None price (Some "b") sample_world = Ok r
    /\ not_space (first_char (city r))
    /\ not_space (last_char (city r))
    /\ query (city r) None price (Some "b") sample_world = Ok r.
Proof.
  eexists. split; [reflexivity |].
  apply (query_echo_roundtrip reference_sort no_float "  Paris " None price
           (Some "b") sample_world).
  reflexivity.
Defined.

Lemma query_normalized_city_witness :
  exists r r',
    query "  Paris " None price (Some "b") sample_world = Ok r
    /\ query (PyStr.lower (PyStr.strip "  Paris ")) None price (Some "b")
         sample_world = Ok r'
    /\ results r' = results r /\ selected r' = selected r
    /\ city r' = PyStr.lower (PyStr.strip "  Paris ").
Proof.
  eexists.
  destruct (query_normalized_city reference_sort no_float "  Paris " None
              price (Some "b") sample_world _ eq_refl) as (r' & H).
  exists r'. split; [reflexivity | exact H].
Defined.

Lemma summary_counts_matches_witness :
  exists r,
    query "Rio" (Some (FFin (inject_Z 9007199254740996))) rating None
      big_world = Ok r
    /\ text r
       = ("Found "
            ++ PyStr.of_nat
                 (List.length
                    (filter (keeps no_float "Rio"
                               (Some (FFin (inject_Z 9007199254740996))))
                       [stay_big]))
            ++ " stays in " ++ PyStr.strip "Rio" ++ ".")%string
    /\ List.length (results r)
       = List.length
           (filter (keeps no_float "Rio"
                      (Some (FFin (inject_Z 9007199254740996))))
              [stay_big])
    /\ applied_min_rating r = Some (FFin (inject_Z 9007199254740996))
    /\ applied_sort r = rating.
Proof.
  eexists. split; [reflexivity |].
  apply (summary_counts_matches reference_sort no_float
           reference_sort_contract "Rio"
           (Some (FFin (inject_Z 9007199254740996))) rating None
           big_world [stay_big]); reflexivity.
Defined.

Lemma no_match_is_empty_success_witness :
  query "Oslo" (Some (FFin (4 # 1)%Q)) price (Some "a") text_rating_world
  = Ok {| text := "Found 0 stays in " ++ PyStr.strip "Oslo" ++ ".";
          city := PyStr.strip "Oslo";
          results := [];
          selected := None;
          applied_min_rating := Some (FFin (4 # 1)%Q);
          applied_sort := price |}.
Proof.
  apply (no_match_is_empty_success reference_sort no_float
           reference_sort_contract "Oslo" (Some (FFin (4 # 1)%Q)) price
           (Some "a") text_rating_world [stay_a; stay_text_rating]).
  - reflexivity.
  - repeat constructor.
  - repeat constructor.
Defined.

Lemma min_rating_monotone_witness :
  exists r0 r1 r2,
    query "paris" None rating None sample_world = Ok r0
    /\ query "paris" (Some (FFin (2 # 1)%Q)) rating None sample_world = Ok r1
    /\ query "paris" (Some (FFin (4 # 1)%Q)) rating None sample_world = Ok r2
    /\ (forall s, In s (results r2) -> In s (results r1))
    /\ (forall s, In s (results r1) -> In s (results r0)).
Proof.
  do 3 eexists. split; [reflexivity |]. split; [reflexivity |].
  split; [reflexivity |].
  apply (min_rating_monotone reference_sort no_float reference_sort_contract
           "paris" (FFin (2 # 1)%Q) (FFin (4 # 1)%Q) rating None
           sample_world); reflexivity.
Defined.

Lemma sort_and_selection_keep_records_witness :
  exists r1 r2,
    query "paris" None rating None sample_world = Ok r1
    /\ query "paris" None price (Some "b") sample_world = Ok r2
    /\ Permutation (results r1) (results r2).
Proof.
  do 2 eexists. split; [reflexivity |]. split; [reflexivity |].
  apply (sort_and_selection_keep_records reference_sort no_float
           reference_sort_contract "paris" None rating price
           None (Some "b") sample_world); reflexivity.
Defined.

Lemma non_list_document_witness :
  query "Paris" None rating None object_world = Err TypeError.
Proof.
  apply (non_list_document reference_sort no_float reference_sort_contract
           "Paris" None rating None object_world
           (VDict [("stays", VList [stay_a; stay_b])]) eq_refl).
  intros l. discriminate.
Defined.

Lemma first_bad_city_witness :
  query "Paris" None rating None no_city_world = Err (KeyError "city").
Proof.
  apply (first_bad_city reference_sort no_float "Paris" None rating None
           no_city_world [stay_a] [] stay_no_city).
  - reflexivity.
  - repeat constructor.
  - reflexivity.
Defined.

Lemma selection_stops_at_first_match_witness :
  exists r0,
    query "Paris" None rating None no_id_world = Ok r0
    /\ query "Paris" None rating (Some "a") no_id_world
       = Ok (with_selected r0 (Some stay_a))
    /\ query "Paris" None rating (Some "z") no_id_world
       = Err (KeyError "id").
Proof.
  eexists. split; [reflexivity |]. split.
  - apply (proj1 (selection_stops_at_first_match reference_sort no_float
                    reference_sort_contract "Paris" None
                    rating "a" no_id_world _ [] [stay_no_id] stay_a
                    ltac:(discriminate) eq_refl eq_refl ltac:(constructor))).
    reflexivity.
  - apply (proj2 (selection_stops_at_first_match reference_sort no_float
                    reference_sort_contract "Paris" None
                    rating "z" no_id_world _ [stay_a] [] stay_no_id
                    ltac:(discriminate) eq_refl eq_refl
                    ltac:(repeat constructor))).
    reflexivity.
Defined.

Lemma well_formed_query_returns_witness :
  exists r,
    query "Paris" (Some (FFin (1 # 2)%Q)) price (Some "b") sample_world = Ok r
    /\ Permutation (results r)
         (filter (keeps no_float "Paris" (Some (FFin (1 # 2)%Q)))
            [stay_a; stay_b; stay_c])
    /\ selected r = selection (Some "b") (results r)
    /\ (ordered_keys (keys_of price (results r)) = true ->
        results r
        = ordered price
            (filter (keeps no_float "Paris" (Some (FFin (1 # 2)%Q)))
               [stay_a; stay_b; stay_c])).
Proof.
  apply (well_formed_query_returns reference_sort no_float
           reference_sort_contract "Paris" (Some (FFin (1 # 2)%Q)) price
           (Some "b") sample_world [stay_a; stay_b; stay_c]).
  - reflexivity.
  - repeat constructor.
Defined.

Lemma first_result_is_best_witness :
  exists r,
    query "Paris" None rating None sample_world = Ok r
    /\ Forall (fun x => py_le (sort_value "rating" x)
                              (sort_value "rating" stay_a)) [stay_b].
Proof.
  eexists. split; [reflexivity |].
  eapply (first_result_is_best reference_sort no_float
            reference_sort_contract "Paris" None rating None sample_world
            [stay_a; stay_b; stay_c] _ stay_a [stay_b]); reflexivity.
Defined.

Lemma widget_page_form_witness :
  build_widget_html sample_world
  = Ok (widget_page "body{}" "console.log(1)")
  /\ stays_widget sample_world
     = Ok {| contents := [ {| content := widget_page "body{}" "console.log(1)";
                              mime_type := "text/html+skybridge" |} ];
             widget_prefers_border := true |}.
Proof.
  apply (widget_page_form sample_world "body{}" "console.log(1)");
    reflexivity.
Defined.

Lemma widget_needs_both_assets_witness :
  stays_widget blank_id_world = Err FileNotFoundError
  /\ (exists scripts, glob sample_world "*.js" = Ok scripts /\ scripts <> [])
  /\ (exists styles, glob sample_world "*.css" = Ok styles /\ styles <> []).
Proof.
  split.
  - apply (proj1 (widget_needs_both_assets blank_id_world)). reflexivity.
  - eapply (proj2 (proj2 (proj2 (widget_needs_both_assets sample_world)))).
    reflexivity.
Defined.

Lemma asset_lookup_order_independent_witness :
  find_built_asset ".js" sample_world = find_built_asset ".js" relisted_world.
Proof.
  apply (asset_lookup_order_independent ".js" sample_world relisted_world
           [script_new; script_old] [script_old; script_new]).
  - reflexivity.
  - reflexivity.
  - apply perm_swap.
  - simpl. repeat constructor; simpl; intuition discriminate.
Defined.

Lemma selection_only_sets_selected_witness :
  exists r,
    query "Paris" None price (Some "b") sample_world = Ok r
    /\ selected r = Some stay_b
    /\ query "Paris" None price None sample_world
       = Ok (with_selected r None).
Proof.
  eexists. split; [reflexivity |]. split; [reflexivity |].
  apply (proj1 (selection_only_sets_selected reference_sort no_float "Paris"
                  None price "b" sample_world)).
  reflexivity.
Defined.
